(** * AdaptiveStepsize (ensmallen, bigbatch_sgd/adaptive_stepsize.hpp)

    A shallow embedding of the adaptive stepsize policy of Big Batch SGD
    and of its backtracking line search, with the properties of the
    controller that the specification states.

    Number model.  A C++ [double] is a rational number ([Q], exact
    arithmetic) wherever a property holds of the code up to rounding;
    there a division whose divisor is zero, an infinity or a NaN in the
    source, is the outcome [NonFinite], which also stands for
    [std::isfinite] being false, so that no theorem rests on the value of a
    division by zero.  Where rounding decides what the code does, that is,
    whether the line search exits and whether its stepsize reaches 0, the
    line search is embedded a second time with a [double] as an IEEE 754
    binary64 number (module [B64]).  A [size_t] is a [nat].

    Armadillo and the objective function are interfaces of the source
    ([arma::mat], the template parameter [DecomposableFunctionType]); they
    are type classes here, with a concrete instance on matrices of at most
    one element used to run the code. *)

From Stdlib Require Import ZArith QArith Qabs Lqa Lia Arith Bool List.
From Stdlib Require Import SpecFloat.
Import ListNotations.

Set Implicit Arguments.
Local Open Scope Q_scope.

(** ** Outcomes of a call *)

Inductive outcome (A : Type) : Type :=
| Ok (a : A)          (* the call returns *)
| NonFinite           (* a division by zero: the double is inf or NaN *)
| OutOfFuel.          (* the while loop has not exited within the fuel *)

Arguments Ok {A} a.
Arguments NonFinite {A}.
Arguments OutOfFuel {A}.

Definition bind {A B : Type} (m : outcome A) (k : A -> outcome B) : outcome B :=
  match m with
  | Ok a => k a
  | NonFinite => NonFinite
  | OutOfFuel => OutOfFuel
  end.

Notation "x <- m ;; k" := (bind m (fun x => k))
  (at level 61, m at next level, right associativity).
Notation "' p <- m ;; k" := (bind m (fun x => let p := x in k))
  (at level 61, p pattern, m at next level, right associativity).

(** ** Scalars *)

(** [(double) n] for a [size_t] n. *)
Definition to_double (n : nat) : Q := inject_Z (Z.of_nat n).

(** [x / y] on doubles. *)
Definition fdiv (x y : Q) : outcome Q :=
  if Qeq_bool y 0 then NonFinite else Ok (x / y).

(** [x > y] on doubles. *)
Definition Qgtb (x y : Q) : bool :=
  match x ?= y with Gt => true | _ => false end.

(** A double used as a condition: true when it is not zero. *)
Definition nonzero (x : Q) : bool := negb (Qeq_bool x 0).

(** [std::pow(x, 2.0)]. *)
Definition pow2 (x : Q) : Q := x ^ 2.

(** [s] after [n] executions of [s *= b]. *)
Definition shrunk (b : Q) (n : nat) (s : Q) : Q :=
  Nat.iter n (fun x => x * b) s.

(** ** The interfaces of the source *)

(** The operations of [arma::mat] that the controller uses. *)
Class Arma (mat : Type) : Type := {
  n_rows : mat -> nat;
  n_cols : mat -> nat;
  is_empty : mat -> bool;
  zeros : nat -> nat -> mat;          (* m.zeros(r, c) *)
  msub : mat -> mat -> mat;           (* A - B *)
  madd : mat -> mat -> mat;           (* A + B *)
  scale : Q -> mat -> mat;            (* s * A *)
  mdivs : mat -> Q -> mat;            (* A / s, s not zero *)
  mmul : mat -> mat -> mat;           (* A * B *)
  trans : mat -> mat;                 (* arma::trans(A) *)
  trace : mat -> Q;                   (* arma::trace(A) *)
  norm : mat -> Q                     (* arma::norm(A, 2) *)
}.

(** What the proofs use of Armadillo: a norm is never negative. *)
Class ArmaLaws (mat : Type) {A : Arma mat} : Prop := {
  norm_nonneg : forall m : mat, 0 <= norm m
}.

Arguments ArmaLaws mat {A}.

(** [DecomposableFunctionType]: the objective, deterministic for fixed
    arguments.  [Gradient f x i n] is the matrix that
    [f.Gradient(x, i, out, n)] stores in [out]. *)
Record DecomposableFunctionType (mat : Type) : Type := {
  Evaluate : mat -> nat -> nat -> Q;
  Gradient : mat -> nat -> nat -> mat;
  NumFunctions : nat
}.

(** ** The controller *)

Record AdaptiveStepsize (mat : Type) : Type := mkAdaptiveStepsize {
  iteratePrev : mat;
  backtrackStepSize : Q;
  searchParameter : Q
}.

Section Controller.

Context {mat : Type} `{Arma mat}.

(** [A / s] for a scalar [s]. *)
Definition mdiv (m : mat) (s : Q) : outcome mat :=
  if Qeq_bool s 0 then NonFinite else Ok (mdivs m s).

(** *** Backtracking *)

(** The objects a call to [Backtracking] can reach: the controller
    ([this]), the stepsize passed by reference, the two matrices passed by
    const reference and its own copy of [gradientNorm]. *)
Record bt_store : Type := mkBt {
  bt_this : AdaptiveStepsize mat;
  bt_stepSize : Q;
  bt_iterate : mat;
  bt_gradient : mat;
  bt_gradientNorm : Q
}.

(** [stepSize *= backtrackStepSize]. *)
Definition bt_shrink (st : bt_store) : bt_store :=
  mkBt (bt_this st)
       (bt_stepSize st * backtrackStepSize (bt_this st))
       (bt_iterate st) (bt_gradient st) (bt_gradientNorm st).

(** [function.Evaluate(iterate - (stepSize * gradient), offset,
    backtrackingBatchSize)]. *)
Definition evalUpdate (f : DecomposableFunctionType mat) (st : bt_store)
    (offset backtrackingBatchSize : nat) : Q :=
  let iterateUpdate :=
    msub (bt_iterate st) (scale (bt_stepSize st) (bt_gradient st)) in
  Evaluate f iterateUpdate offset backtrackingBatchSize.

(** The condition of the while loop. *)
Definition bt_cond (st : bt_store) (overallObjective overallObjectiveUpdate : Q)
    : bool :=
  Qgtb overallObjectiveUpdate
       (overallObjective
        - searchParameter (bt_this st) * bt_stepSize st * bt_gradientNorm st).

(** The while loop; [fuel] bounds the number of times its body runs. *)
Fixpoint bt_while (fuel : nat) (f : DecomposableFunctionType mat)
    (offset backtrackingBatchSize : nat) (overallObjective : Q)
    (st : bt_store) (overallObjectiveUpdate : Q) : outcome bt_store :=
  if bt_cond st overallObjective overallObjectiveUpdate then
    match fuel with
    | O => OutOfFuel
    | S fuel' =>
        let st := bt_shrink st in
        let overallObjectiveUpdate :=
          evalUpdate f st offset backtrackingBatchSize in
        bt_while fuel' f offset backtrackingBatchSize overallObjective
                 st overallObjectiveUpdate
    end
  else Ok st.

Definition Backtracking (fuel : nat) (f : DecomposableFunctionType mat)
    (st : bt_store) (offset backtrackingBatchSize : nat) : outcome bt_store :=
  let overallObjective :=
    Evaluate f (bt_iterate st) offset backtrackingBatchSize in
  let overallObjectiveUpdate :=
    evalUpdate f st offset backtrackingBatchSize in
  bt_while fuel f offset backtrackingBatchSize overallObjective
           st overallObjectiveUpdate.

(** The store after [n] runs of the body of the while loop. *)
Definition bt_iter (n : nat) (st : bt_store) : bt_store :=
  Nat.iter n bt_shrink st.

(** The condition of the while loop as [Backtracking] evaluates it when the
    store is [st]: true when the stepsize of [st] is rejected. *)
Definition rejected (f : DecomposableFunctionType mat) (st : bt_store)
    (offset backtrackingBatchSize : nat) : bool :=
  bt_cond st (Evaluate f (bt_iterate st) offset backtrackingBatchSize)
          (evalUpdate f st offset backtrackingBatchSize).

(** *** Update *)

(** The objects a call to [Update] can reach: the controller and the five
    arguments passed by reference. *)
Record up_store : Type := mkUp {
  up_this : AdaptiveStepsize mat;
  up_stepSize : Q;
  up_iterate : mat;
  up_gradient : mat;
  up_gradientNorm : Q;
  up_sampleVariance : Q
}.

(** [Backtracking(function, stepSize, iterate, gradient, gradientNorm,
    offset, backtrackingBatchSize)] as [Update] calls it: [gradientNorm] is
    passed by value, everything else by reference. *)
Definition call_Backtracking (fuel : nat) (f : DecomposableFunctionType mat)
    (st : up_store) (offset backtrackingBatchSize : nat) : outcome up_store :=
  bt <- Backtracking fuel f
          (mkBt (up_this st) (up_stepSize st) (up_iterate st)
                (up_gradient st) (up_gradientNorm st))
          offset backtrackingBatchSize ;;
  Ok (mkUp (bt_this bt) (bt_stepSize bt) (bt_iterate bt) (bt_gradient bt)
           (up_gradientNorm st) (up_sampleVariance st)).

(** The variables the for loop of [Update] assigns. *)
Record sample_acc : Type := mkAcc {
  acc_vB : Q;
  acc_delta1 : mat;
  acc_gradient : mat;
  acc_gradPrevIterate : mat
}.

(** The body of the for loop, for the indices [j] and [k]. *)
Definition sample_body (f : DecomposableFunctionType mat)
    (iterate iteratePrev : mat) (offset j k : nat) (acc : sample_acc)
    : outcome sample_acc :=
  let functionGradient := Gradient f iterate (offset + j) 1 in
  d <- mdiv (msub functionGradient (acc_delta1 acc)) (to_double k) ;;
  let delta0 := madd (acc_delta1 acc) d in
  let vB := acc_vB acc + norm (msub functionGradient (acc_delta1 acc))
                         * norm (msub functionGradient delta0) in
  let delta1 := delta0 in
  let gradient := madd (acc_gradient acc) functionGradient in
  let functionGradientPrev := Gradient f iteratePrev (offset + j) 1 in
  let gradPrevIterate :=
    madd (acc_gradPrevIterate acc) functionGradientPrev in
  Ok (mkAcc vB delta1 gradient gradPrevIterate).

(** [for (size_t j = 1, k = 1; j < backtrackingBatchSize; ++j, ++k)]: with
    [n] the number of iterations left, [backtrackingBatchSize - j]. *)
Fixpoint sample_loop (n : nat) (f : DecomposableFunctionType mat)
    (iterate iteratePrev : mat) (offset j k : nat) (acc : sample_acc)
    : outcome sample_acc :=
  match n with
  | O => Ok acc
  | S n' =>
      acc <- sample_body f iterate iteratePrev offset j k acc ;;
      sample_loop n' f iterate iteratePrev offset (S j) (S k) acc
  end.

(** [const double v = std::isfinite(vTmp) ? vTmp : 0.0] for
    [vTmp = vNum / vDenom]. *)
Definition curvature (vNum vDenom : Q) : Q :=
  match fdiv vNum vDenom with
  | Ok vTmp => vTmp
  | _ => 0
  end.

(** Lines 87 to 142: the iterate moves, the gradient, its norm and the
    sample variance are recomputed over the backtracking batch, the
    curvature [v] is estimated and [iteratePrev] is replaced.  The result
    is the store and [v]. *)
Definition estimate (f : DecomposableFunctionType mat) (st : up_store)
    (offset backtrackingBatchSize : nat) : outcome (up_store * Q) :=
  let this := up_this st in
  let stepSize := up_stepSize st in
  let iterate := msub (up_iterate st) (scale stepSize (up_gradient st)) in
  let iteratePrev :=
    if is_empty (iteratePrev this)
    then zeros (n_rows iterate) (n_cols iterate)
    else iteratePrev this in
  let gradient := Gradient f iterate offset 1 in
  let gradPrevIterate := Gradient f iteratePrev offset 1 in
  let delta1 := gradient in
  acc <- sample_loop (backtrackingBatchSize - 1) f iterate iteratePrev
           offset 1 1 (mkAcc 0 delta1 gradient gradPrevIterate) ;;
  let gradient := acc_gradient acc in
  let gradPrevIterate := acc_gradPrevIterate acc in
  let sampleVariance := acc_vB acc in
  avg <- mdiv gradient (to_double backtrackingBatchSize) ;;
  let gradientNorm := pow2 (norm avg) in
  let vNum :=
    trace (mmul (trans (msub iterate iteratePrev))
                (msub gradient gradPrevIterate)) in
  let vDenom := pow2 (norm (msub iterate iteratePrev)) in
  let v := curvature vNum vDenom in
  let this :=
    mkAdaptiveStepsize iterate (backtrackStepSize this) (searchParameter this) in
  Ok (mkUp this stepSize iterate gradient gradientNorm sampleVariance, v).

(** Lines 146 to 158: the local [stepSizeDecay]. *)
Definition stepSizeDecay (gradientNorm sampleVariance : Q) (batchSize : nat)
    (v : Q) (numFunctions : nat) : outcome Q :=
  if nonzero gradientNorm && nonzero sampleVariance
     && negb (batchSize =? 0)%nat && nonzero v
  then
    if (batchSize <? numFunctions)%nat then
      a <- fdiv 1 (to_double batchSize - 1) ;;
      b <- fdiv (a * sampleVariance) (to_double batchSize * gradientNorm) ;;
      fdiv (1 - b) v
    else fdiv 1 v
  else Ok 0.

(** Lines 161 and 162: stepsize smoothing. *)
Definition smooth (stepSize stepSizeDecay : Q) (batchSize numFunctions : nat)
    : outcome Q :=
  r1 <- fdiv (to_double batchSize) (to_double numFunctions) ;;
  let stepSize := stepSize * (1 - r1) in
  r2 <- fdiv (to_double batchSize) (to_double numFunctions) ;;
  let stepSize := stepSize + stepSizeDecay * r2 in
  Ok stepSize.

(** [Update] up to, and without, its second call to [Backtracking]: the
    store handed to that call, with the curvature and the decay that led
    to it. *)
Definition Update_blend (fuel : nat) (f : DecomposableFunctionType mat)
    (st : up_store) (offset batchSize backtrackingBatchSize : nat)
    : outcome (up_store * Q * Q) :=
  st <- call_Backtracking fuel f st offset backtrackingBatchSize ;;
  '(st, v) <- estimate f st offset backtrackingBatchSize ;;
  decay <- stepSizeDecay (up_gradientNorm st) (up_sampleVariance st)
             batchSize v (NumFunctions f) ;;
  stepSize <- smooth (up_stepSize st) decay batchSize (NumFunctions f) ;;
  Ok (mkUp (up_this st) stepSize (up_iterate st) (up_gradient st)
           (up_gradientNorm st) (up_sampleVariance st), v, decay).

(** [Update]; its last parameter is the unnamed [const bool /* reset */]. *)
Definition Update (fuel : nat) (f : DecomposableFunctionType mat)
    (st : up_store) (offset batchSize backtrackingBatchSize : nat)
    (_ : bool) : outcome up_store :=
  '(st, _, _) <- Update_blend fuel f st offset batchSize
                   backtrackingBatchSize ;;
  call_Backtracking fuel f st offset backtrackingBatchSize.

End Controller.

Arguments bt_store : clear implicits.
Arguments up_store : clear implicits.
Arguments sample_acc : clear implicits.

(** ** Matrices of at most one element *)

(** The default-constructed, empty [arma::mat] and the 1x1 matrices; on
    these every operation of Armadillo is exact in the rationals, and the
    2-norm is the absolute value. *)
Inductive mat1 : Type :=
| M0
| M1 (x : Q).

Definition lift2 (op : Q -> Q -> Q) (a b : mat1) : mat1 :=
  match a, b with
  | M1 x, M1 y => M1 (op x y)
  | _, _ => M0
  end.

Definition lift1 (op : Q -> Q) (a : mat1) : mat1 :=
  match a with
  | M1 x => M1 (op x)
  | M0 => M0
  end.

Definition entry (a : mat1) : Q :=
  match a with
  | M1 x => x
  | M0 => 0
  end.

#[export] Instance Arma_mat1 : Arma mat1 := {
  n_rows a := match a with M0 => 0%nat | M1 _ => 1%nat end;
  n_cols a := match a with M0 => 0%nat | M1 _ => 1%nat end;
  is_empty a := match a with M0 => true | M1 _ => false end;
  zeros r c := match (r * c)%nat with O => M0 | _ => M1 0 end;
  msub := lift2 Qminus;
  madd := lift2 Qplus;
  scale s := lift1 (Qmult s);
  mdivs a s := lift1 (fun x => x / s) a;
  mmul := lift2 Qmult;
  trans a := a;
  trace := entry;
  norm a := Qabs (entry a)
}.

(** The objective [0.5 * (x - c)^2], the same on each of [n] samples: its
    [Evaluate] and [Gradient] ignore the offset and the batch size. *)
Definition quadratic (c : Q) (n : nat) : DecomposableFunctionType mat1 := {|
  Evaluate x _ _ := (1 # 2) * (entry x - c) * (entry x - c);
  Gradient x _ _ := M1 (entry x - c);
  NumFunctions := n
|}.

(** A controller as constructed: [iteratePrev] is empty. *)
Definition fresh (backtrackStepSize searchParameter : Q)
    : AdaptiveStepsize mat1 :=
  mkAdaptiveStepsize M0 backtrackStepSize searchParameter.

(** The sum of [g i] over the samples [offset, offset + batchSize). *)
Definition sample_sum (g : nat -> Q) (offset batchSize : nat) : Q :=
  fold_right (fun i acc => g i + acc) 0 (seq offset batchSize).

(** The objective whose sample [i] is [0.5 * (x - i)^2], on [n] samples. *)
Definition shifted (n : nat) : DecomposableFunctionType mat1 := {|
  Evaluate x offset batchSize :=
    sample_sum (fun i => (1 # 2) * (entry x - to_double i)
                                 * (entry x - to_double i))
               offset batchSize;
  Gradient x offset batchSize :=
    M1 (sample_sum (fun i => entry x - to_double i) offset batchSize);
  NumFunctions := n
|}.

(** ** Scenarios *)

(** The scenario of the specification: [0.5 * x^2] on 10 samples, shrink
    factor 0.5, search parameter 0.1, iterate 10, gradient 10, stepsize 1,
    with the gradient norm [gn] supplied by the caller. *)
Definition spec_scenario (gn : Q) : bt_store mat1 :=
  mkBt (fresh (1 # 2) (1 # 10)) 1 (M1 10) (M1 10) gn.

(** The same with the stepsize -1 and the gradient norm 1100. *)
Definition negative_step : bt_store mat1 :=
  mkBt (fresh (1 # 2) (1 # 10)) (- (1)) (M1 10) (M1 10) 1100.

(** A first call to [Update] on [0.5 * (x - 2)^2]: iterate 6, gradient 4,
    gradient norm 16, stepsize 1.5; the step lands on 0, which is also the
    previous iterate of a fresh controller, so the curvature is forced
    to 0. *)
Definition flat_start : up_store mat1 :=
  mkUp (fresh (1 # 2) (1 # 10)) (3 # 2) (M1 6) (M1 4) 16 0.

(** A first call to [Update] on [shifted]: iterate 5, gradient 12 (the sum
    over the samples 0, 1, 2), gradient norm 16, stepsize 0.25. *)
Definition noisy_start : up_store mat1 :=
  mkUp (fresh (1 # 2) (1 # 10)) (1 # 4) (M1 5) (M1 12) 16 0.

(** The arguments of the call of [Backtracking] that [Update] makes on the
    store [st]. *)
Definition bt_of {mat : Type} (st : up_store mat) : bt_store mat :=
  mkBt (up_this st) (up_stepSize st) (up_iterate st) (up_gradient st)
       (up_gradientNorm st).

(** The objective [shifted] with the samples from [m] on replaced by the
    constant 0. *)
Definition masked (m n : nat) : DecomposableFunctionType mat1 := {|
  Evaluate x offset batchSize :=
    sample_sum (fun i => if (i <? m)%nat
                         then (1 # 2) * (entry x - to_double i)
                                      * (entry x - to_double i)
                         else 0)
               offset batchSize;
  Gradient x offset batchSize :=
    M1 (sample_sum (fun i => if (i <? m)%nat
                             then entry x - to_double i else 0)
                   offset batchSize);
  NumFunctions := n
|}.

(** ** The line search in binary64 *)

(** Whether the while loop of [Backtracking] exits, and whether the
    stepsize reaches 0, depends on the rounding of [double]: this module is
    the same line search with a [double] as an IEEE 754 binary64 number,
    each operation rounded to nearest, ties to even. *)
Module B64.

Definition prec : Z := 53%Z.
Definition emax : Z := 1024%Z.

Definition double : Type := spec_float.

(** [x * y], [x - y] and [x > y] on doubles. *)
Definition mul (x y : double) : double := SFmul prec emax x y.
Definition sub (x y : double) : double := SFsub prec emax x y.
Definition gtb (x y : double) : bool := SFltb y x.

(** [x < y] and [x <= y], false when an operand is a NaN. *)
Definition ltb (x y : double) : bool := SFltb x y.
Definition leb (x y : double) : bool := SFleb x y.

(** The doubles 0, 1, 0.5, 0.75, 0.1 (the nearest double), 10, 50 and
    1000. *)
Definition zero : double := S754_zero false.
Definition one : double := S754_finite false 4503599627370496 (-52).
Definition half : double := S754_finite false 4503599627370496 (-53).
Definition three_quarters : double :=
  S754_finite false 6755399441055744 (-53).
Definition tenth : double := S754_finite false 7205759403792794 (-56).
Definition ten : double := S754_finite false 5629499534213120 (-49).
Definition fifty : double := S754_finite false 7036874417766400 (-47).
Definition thousand : double := S754_finite false 8796093022208000 (-43).

(** The two operations of [arma::mat] that [Backtracking] uses. *)
Class Arma (mat : Type) : Type := {
  msub : mat -> mat -> mat;           (* A - B *)
  scale : double -> mat -> mat        (* s * A *)
}.

(** Of the objective, [Backtracking] calls [Evaluate] only. *)
Record DecomposableFunctionType (mat : Type) : Type := {
  Evaluate : mat -> nat -> nat -> double
}.

Record AdaptiveStepsize (mat : Type) : Type := mkAdaptiveStepsize {
  iteratePrev : mat;
  backtrackStepSize : double;
  searchParameter : double
}.

Section Controller.

Context {mat : Type} `{Arma mat}.

Record bt_store : Type := mkBt {
  bt_this : AdaptiveStepsize mat;
  bt_stepSize : double;
  bt_iterate : mat;
  bt_gradient : mat;
  bt_gradientNorm : double
}.

(** [stepSize *= backtrackStepSize]. *)
Definition bt_shrink (st : bt_store) : bt_store :=
  mkBt (bt_this st)
       (mul (bt_stepSize st) (backtrackStepSize (bt_this st)))
       (bt_iterate st) (bt_gradient st) (bt_gradientNorm st).

(** [function.Evaluate(iterate - (stepSize * gradient), offset,
    backtrackingBatchSize)]. *)
Definition evalUpdate (f : DecomposableFunctionType mat) (st : bt_store)
    (offset backtrackingBatchSize : nat) : double :=
  let iterateUpdate :=
    msub (bt_iterate st) (scale (bt_stepSize st) (bt_gradient st)) in
  Evaluate f iterateUpdate offset backtrackingBatchSize.

(** The condition of the while loop. *)
Definition bt_cond (st : bt_store)
    (overallObjective overallObjectiveUpdate : double) : bool :=
  gtb overallObjectiveUpdate
      (sub overallObjective
           (mul (mul (searchParameter (bt_this st)) (bt_stepSize st))
                (bt_gradientNorm st))).

(** The while loop; [fuel] bounds the number of times its body runs. *)
Fixpoint bt_while (fuel : nat) (f : DecomposableFunctionType mat)
    (offset backtrackingBatchSize : nat) (overallObjective : double)
    (st : bt_store) (overallObjectiveUpdate : double) : outcome bt_store :=
  if bt_cond st overallObjective overallObjectiveUpdate then
    match fuel with
    | O => OutOfFuel
    | S fuel' =>
        let st := bt_shrink st in
        let overallObjectiveUpdate :=
          evalUpdate f st offset backtrackingBatchSize in
        bt_while fuel' f offset backtrackingBatchSize overallObjective
                 st overallObjectiveUpdate
    end
  else Ok st.

Definition Backtracking (fuel : nat) (f : DecomposableFunctionType mat)
    (st : bt_store) (offset backtrackingBatchSize : nat) : outcome bt_store :=
  let overallObjective :=
    Evaluate f (bt_iterate st) offset backtrackingBatchSize in
  let overallObjectiveUpdate :=
    evalUpdate f st offset backtrackingBatchSize in
  bt_while fuel f offset backtrackingBatchSize overallObjective
           st overallObjectiveUpdate.

(** The store after [n] runs of the body of the while loop. *)
Definition bt_iter (n : nat) (st : bt_store) : bt_store :=
  Nat.iter n bt_shrink st.

(** The condition of the while loop as [Backtracking] evaluates it when the
    store is [st]: true when the stepsize of [st] is rejected. *)
Definition rejected (f : DecomposableFunctionType mat) (st : bt_store)
    (offset backtrackingBatchSize : nat) : bool :=
  bt_cond st (Evaluate f (bt_iterate st) offset backtrackingBatchSize)
          (evalUpdate f st offset backtrackingBatchSize).

(** Whether the stepsizes of [st] and of the [n - 1] stores that follow it
    in the loop are all rejected. *)
Fixpoint all_rejected (n : nat) (f : DecomposableFunctionType mat)
    (st : bt_store) (offset backtrackingBatchSize : nat) : bool :=
  match n with
  | O => true
  | S n' =>
      rejected f st offset backtrackingBatchSize
      && all_rejected n' f (bt_shrink st) offset backtrackingBatchSize
  end.

End Controller.

Arguments bt_store : clear implicits.

(** A double that is neither negative nor a NaN: [+0], a positive finite
    number or [+inf]. *)
Definition nonneg (x : double) : bool :=
  match x with
  | S754_zero false | S754_infinity false | S754_finite false _ _ => true
  | _ => false
  end.

(** Matrices of one element: the element. *)
#[global] Instance Arma_mat1 : Arma double := {
  msub := sub;
  scale := mul
}.

(** The objective [|x|]. *)
Definition absolute : DecomposableFunctionType double := {|
  Evaluate x _ _ := SFabs x
|}.

(** The objective [0.5 * x * x]. *)
Definition quadratic : DecomposableFunctionType double := {|
  Evaluate x _ _ := mul (mul half x) x
|}.

(** The objective [|x|] at its kink: iterate 0, gradient 1 of norm 1,
    stepsize 1, search parameter 0.1, shrink factor [b]. *)
Definition kink (b : double) : bt_store double :=
  mkBt (mkAdaptiveStepsize zero b tenth) one zero one one.

(** The scenario of the specification: [0.5 * x * x], shrink factor 0.5,
    search parameter 0.1, iterate 10, gradient 10, stepsize 1, gradient
    norm 1000. *)
Definition spec_scenario : bt_store double :=
  mkBt (mkAdaptiveStepsize zero half tenth) one ten ten thousand.

End B64.

(** ** Construction and accessors *)

(** [AdaptiveStepsize(const double backtrackStepSize = 0.5,
    const double searchParameter = 0.1)]: an argument left out is [None].
    The member [iteratePrev] is default-constructed, a 0x0 matrix. *)
Definition AdaptiveStepsize_ctor {mat : Type} `{Arma mat}
    (backtrackStepSize searchParameter : option Q) : AdaptiveStepsize mat :=
  mkAdaptiveStepsize (zeros 0 0)
    (match backtrackStepSize with Some b => b | None => 1 # 2 end)
    (match searchParameter with Some c => c | None => 1 # 10 end).

(** [double BacktrackStepSize() const]. *)
Definition BacktrackStepSize {mat : Type} (this : AdaptiveStepsize mat) : Q :=
  backtrackStepSize this.

(** [double& BacktrackStepSize()], used to assign [x]. *)
Definition BacktrackStepSize_set {mat : Type} (this : AdaptiveStepsize mat)
    (x : Q) : AdaptiveStepsize mat :=
  mkAdaptiveStepsize (iteratePrev this) x (searchParameter this).

(** [double SearchParameter() const]. *)
Definition SearchParameter {mat : Type} (this : AdaptiveStepsize mat) : Q :=
  searchParameter this.

(** [double& SearchParameter()], used to assign [x]. *)
Definition SearchParameter_set {mat : Type} (this : AdaptiveStepsize mat)
    (x : Q) : AdaptiveStepsize mat :=
  mkAdaptiveStepsize (iteratePrev this) (backtrackStepSize this) x.

(** ** Closed forms of what the for loop of [Update] accumulates *)

(** The sum, in the order of the loop, of the gradients at [x] of the
    samples [offset], [offset + 1], ..., [offset + n - 1] (of the sample
    [offset] alone when [n] is 0). *)
Definition gradient_sum {mat : Type} `{Arma mat}
    (f : DecomposableFunctionType mat) (x : mat) (offset n : nat) : mat :=
  fold_left madd
    (map (fun j => Gradient f x (offset + j) 1) (seq 1 (n - 1)))
    (Gradient f x offset 1).

(** The matrix that [Update] uses as the previous iterate when the new
    iterate is [iterate]. *)
Definition previous_iterate {mat : Type} `{Arma mat}
    (this : AdaptiveStepsize mat) (iterate : mat) : mat :=
  if is_empty (iteratePrev this)
  then zeros (n_rows iterate) (n_cols iterate)
  else iteratePrev this.

(** * Properties *)

(** ** Comparisons and divisions *)

Lemma Qgtb_true (x y : Q) : Qgtb x y = true <-> y < x.
Proof.
  unfold Qgtb. rewrite (Qgt_alt x y).
  destruct (x ?= y); split; intros E; try reflexivity; discriminate E.
Qed.


Lemma nonzero_true (x : Q) : nonzero x = true <-> ~ x == 0.
Proof.
  unfold nonzero. rewrite negb_true_iff. split.
  - apply Qeq_bool_neq.
  - intros N. destruct (Qeq_bool x 0) eqn:E; [|reflexivity].
    exfalso. apply N. apply Qeq_bool_iff. exact E.
Qed.

Lemma nonzero_false (x : Q) : nonzero x = false <-> x == 0.
Proof.
  unfold nonzero. rewrite negb_false_iff. apply Qeq_bool_iff.
Qed.

Lemma fdiv_Ok (x y q : Q) : fdiv x y = Ok q -> ~ y == 0 /\ q = x / y.
Proof.
  unfold fdiv. destruct (Qeq_bool y 0) eqn:E; [discriminate|].
  intros [= <-]. split; [apply Qeq_bool_neq; exact E | reflexivity].
Qed.

Lemma fdiv_nonzero (x y : Q) : ~ y == 0 -> fdiv x y = Ok (x / y).
Proof.
  intros N. unfold fdiv. destruct (Qeq_bool y 0) eqn:E; [|reflexivity].
  exfalso. apply N. apply Qeq_bool_iff. exact E.
Qed.

Lemma bind_Ok {A B : Type} (m : outcome A) (k : A -> outcome B) (b : B) :
  bind m k = Ok b -> exists a, m = Ok a /\ k a = Ok b.
Proof.
  destruct m; simpl; intros E; try discriminate. exists a. auto.
Qed.

Section BacktrackingProperties.

Context {mat : Type} `{Arma mat}.
Variable f : DecomposableFunctionType mat.
Variables offset backtrackingBatchSize : nat.

(** *** The loop body only writes the stepsize *)

Lemma bt_iter_S (n : nat) (st : bt_store mat) :
  bt_iter (S n) st = bt_shrink (bt_iter n st).
Proof. reflexivity. Qed.

Lemma bt_iter_shift (n : nat) (st : bt_store mat) :
  bt_iter n (bt_shrink st) = bt_iter (S n) st.
Proof.
  unfold bt_iter. symmetry. apply Nat.iter_succ_r.
Qed.

Lemma bt_iter_frame (n : nat) (st : bt_store mat) :
  bt_this (bt_iter n st) = bt_this st /\
  bt_iterate (bt_iter n st) = bt_iterate st /\
  bt_gradient (bt_iter n st) = bt_gradient st /\
  bt_gradientNorm (bt_iter n st) = bt_gradientNorm st.
Proof.
  induction n as [|n IH]; [repeat split|].
  rewrite bt_iter_S. destruct IH as (Ht & Hi & Hg & Hn).
  unfold bt_shrink; simpl. auto.
Qed.

Lemma bt_iter_stepSize_S (n : nat) (st : bt_store mat) :
  bt_stepSize (bt_iter (S n) st)
  = bt_stepSize (bt_iter n st) * backtrackStepSize (bt_this st).
Proof.
  rewrite bt_iter_S. unfold bt_shrink; simpl.
  destruct (bt_iter_frame n st) as (-> & _). reflexivity.
Qed.

(** *** The while loop returns the first accepted candidate *)

Lemma rejected_iter (n : nat) (st : bt_store mat) :
  rejected f (bt_iter n st) offset backtrackingBatchSize
  = bt_cond (bt_iter n st)
            (Evaluate f (bt_iterate st) offset backtrackingBatchSize)
            (evalUpdate f (bt_iter n st) offset backtrackingBatchSize).
Proof.
  unfold rejected. destruct (bt_iter_frame n st) as (_ & -> & _). reflexivity.
Qed.

Lemma bt_while_Ok (obj : Q) (fuel : nat) : forall st st' : bt_store mat,
  bt_while fuel f offset backtrackingBatchSize obj st
           (evalUpdate f st offset backtrackingBatchSize) = Ok st' ->
  exists n, (n <= fuel)%nat /\ st' = bt_iter n st /\
    bt_cond (bt_iter n st) obj
      (evalUpdate f (bt_iter n st) offset backtrackingBatchSize) = false /\
    forall k, (k < n)%nat ->
      bt_cond (bt_iter k st) obj
        (evalUpdate f (bt_iter k st) offset backtrackingBatchSize) = true.
Proof.
  induction fuel as [|fuel IH]; intros st st'; simpl;
    destruct (bt_cond st obj _) eqn:C; try discriminate.
  - intros [= <-]. exists 0%nat. repeat split; auto. intros k Hk; lia.
  - intros E. apply IH in E. destruct E as (n & Hn & -> & Hacc & Hrej).
    exists (S n). rewrite <- !bt_iter_shift. repeat split; auto; [lia|].
    intros [|k] Hk; [exact C|].
    rewrite <- bt_iter_shift. apply Hrej. lia.
  - intros [= <-]. exists 0%nat. repeat split; auto; [lia|]. intros k Hk; lia.
Qed.

Lemma bt_while_reach (obj : Q) (n : nat) : forall (fuel : nat) (st : bt_store mat),
  (n <= fuel)%nat ->
  bt_cond (bt_iter n st) obj
    (evalUpdate f (bt_iter n st) offset backtrackingBatchSize) = false ->
  (forall k, (k < n)%nat ->
     bt_cond (bt_iter k st) obj
       (evalUpdate f (bt_iter k st) offset backtrackingBatchSize) = true) ->
  bt_while fuel f offset backtrackingBatchSize obj st
           (evalUpdate f st offset backtrackingBatchSize) = Ok (bt_iter n st).
Proof.
  induction n as [|n IH]; intros fuel st Hle Hacc Hrej.
  - change (bt_iter 0 st) with st in Hacc.
    destruct fuel; simpl; rewrite Hacc; reflexivity.
  - destruct fuel as [|fuel]; [lia|]. cbn [bt_while].
    assert (H0 := Hrej 0%nat (Nat.lt_0_succ n)).
    change (bt_iter 0 st) with st in H0. rewrite H0.
    rewrite <- bt_iter_shift. apply IH; [lia| |].
    + rewrite bt_iter_shift. exact Hacc.
    + intros k Hk. rewrite bt_iter_shift. apply Hrej. lia.
Qed.

(** [Backtracking] returns exactly the first store of the sequence
    [bt_iter 0 st], [bt_iter 1 st], ... whose stepsize is not rejected. *)
Lemma Backtracking_Ok (fuel : nat) (st st' : bt_store mat) :
  Backtracking fuel f st offset backtrackingBatchSize = Ok st' <->
  exists n, (n <= fuel)%nat /\ st' = bt_iter n st /\
    rejected f (bt_iter n st) offset backtrackingBatchSize = false /\
    forall k, (k < n)%nat ->
      rejected f (bt_iter k st) offset backtrackingBatchSize = true.
Proof.
  unfold Backtracking. split.
  - intros E. apply bt_while_Ok in E. destruct E as (n & Hn & -> & Hacc & Hrej).
    exists n. rewrite rejected_iter. repeat split; auto.
    intros k Hk. rewrite rejected_iter. auto.
  - intros (n & Hn & -> & Hacc & Hrej). apply bt_while_reach; auto.
    + rewrite <- rejected_iter. exact Hacc.
    + intros k Hk. rewrite <- rejected_iter. auto.
Qed.

(** *** The candidates of a nonnegative stepsize *)

Lemma bt_iter_stepSize_le (n : nat) (st : bt_store mat) :
  0 <= backtrackStepSize (bt_this st) <= 1 -> 0 <= bt_stepSize st ->
  0 <= bt_stepSize (bt_iter n st) <= bt_stepSize st.
Proof.
  intros Hb Hs. induction n as [|n IH].
  - change (bt_iter 0 st) with st. lra.
  - rewrite bt_iter_stepSize_S. nra.
Qed.

(** *** The claims on Backtracking *)


(** C10. [Backtracking] writes the stepsize only: on return the iterate,
    the gradient, the gradient norm and the controller (its previous
    iterate, its shrink factor and its search parameter) are the ones
    passed in. *)
Theorem Backtracking_frame (fuel : nat) (st st' : bt_store mat) :
  Backtracking fuel f st offset backtrackingBatchSize = Ok st' ->
  bt_iterate st' = bt_iterate st /\
  bt_gradient st' = bt_gradient st /\
  bt_gradientNorm st' = bt_gradientNorm st /\
  iteratePrev (bt_this st') = iteratePrev (bt_this st) /\
  backtrackStepSize (bt_this st') = backtrackStepSize (bt_this st) /\
  searchParameter (bt_this st') = searchParameter (bt_this st).
Proof.
  intros E. apply Backtracking_Ok in E. destruct E as (n & _ & -> & _).
  destruct (bt_iter_frame n st) as (-> & -> & -> & ->). repeat split.
Qed.

(** C7, amended. When [Backtracking] returns it has run the loop body some
    [n] times: each of the [n] rejected candidates was followed by exactly
    [backtrackStepSize] times itself, and the last of them is the stepsize
    returned.  For a stepsize >= 0 on entry and a shrink factor in [0,1],
    the stepsize returned is <= the one passed in. *)
Theorem Backtracking_monotone_shrink (fuel : nat) (st st' : bt_store mat) :
  Backtracking fuel f st offset backtrackingBatchSize = Ok st' ->
  (exists n, (n <= fuel)%nat /\ st' = bt_iter n st /\
     forall k, (k < n)%nat ->
       rejected f (bt_iter k st) offset backtrackingBatchSize = true /\
       bt_stepSize (bt_iter (S k) st)
       = bt_stepSize (bt_iter k st) * backtrackStepSize (bt_this st)) /\
  (0 <= bt_stepSize st -> 0 <= backtrackStepSize (bt_this st) <= 1 ->
   bt_stepSize st' <= bt_stepSize st).
Proof.
  intros E. apply Backtracking_Ok in E.
  destruct E as (n & Hn & -> & _ & Hrej). split.
  - exists n. repeat split; auto. apply bt_iter_stepSize_S.
  - intros Hs Hb. apply bt_iter_stepSize_le; assumption.
Qed.

(** The first index at which a predicate on the naturals fails. *)
Lemma first_false (P : nat -> bool) (n : nat) :
  P n = false ->
  exists m, (m <= n)%nat /\ P m = false /\
    forall k, (k < m)%nat -> P k = true.
Proof.
  induction n as [n IH] using (well_founded_induction lt_wf). intros Hn.
  destruct (existsb (fun k => negb (P k)) (seq 0 n)) eqn:Ex.
  - apply existsb_exists in Ex. destruct Ex as (k & Hin & Hk).
    apply in_seq in Hin. apply negb_true_iff in Hk.
    destruct (IH k) as (m & Hm & Hf & Hall); [lia | exact Hk |].
    exists m. repeat split; auto. lia.
  - exists n. repeat split; auto. intros k Hk.
    destruct (P k) eqn:Pk; [reflexivity|].
    assert (existsb (fun k => negb (P k)) (seq 0 n) = true).
    { apply existsb_exists. exists k. split; [apply in_seq; lia|].
      rewrite Pk. reflexivity. }
    congruence.
Qed.

End BacktrackingProperties.

Section UpdateProperties.

Context {mat : Type} `{Arma mat}.
Variable f : DecomposableFunctionType mat.
Variables offset batchSize backtrackingBatchSize : nat.

Lemma bt_iter_shrunk (n : nat) (st : bt_store mat) :
  bt_stepSize (bt_iter n st)
  = shrunk (backtrackStepSize (bt_this st)) n (bt_stepSize st).
Proof.
  induction n as [|n IH]; [reflexivity|].
  rewrite bt_iter_stepSize_S, IH. reflexivity.
Qed.

(** What a call to [Backtracking] from [Update] leaves in the store of
    [Update]. *)
Lemma call_Backtracking_Ok (fuel : nat) (st st' : up_store mat) :
  call_Backtracking fuel f st offset backtrackingBatchSize = Ok st' ->
  up_this st' = up_this st /\
  up_iterate st' = up_iterate st /\
  up_gradient st' = up_gradient st /\
  up_gradientNorm st' = up_gradientNorm st /\
  up_sampleVariance st' = up_sampleVariance st /\
  exists n, (n <= fuel)%nat /\
    up_stepSize st'
    = shrunk (backtrackStepSize (up_this st)) n (up_stepSize st).
Proof.
  unfold call_Backtracking. intros E.
  apply bind_Ok in E. destruct E as (bt & E & [= <-]).
  apply Backtracking_Ok in E. destruct E as (n & Hn & -> & _).
  destruct (bt_iter_frame n
              (mkBt (up_this st) (up_stepSize st) (up_iterate st)
                    (up_gradient st) (up_gradientNorm st)))
    as (Ht & Hi & Hg & _).
  simpl in *. repeat split; auto.
  exists n. split; [exact Hn|]. rewrite bt_iter_shrunk. reflexivity.
Qed.

(** *** The sample variance *)

Lemma sample_body_vB `{!ArmaLaws mat} (iterate iteratePrev : mat)
    (j k : nat) (acc acc' : sample_acc mat) :
  sample_body f iterate iteratePrev offset j k acc = Ok acc' ->
  0 <= acc_vB acc -> 0 <= acc_vB acc'.
Proof.
  unfold sample_body. intros E Hv.
  apply bind_Ok in E. destruct E as (d & _ & [= <-]). simpl.
  set (g := Gradient f iterate (offset + j) 1).
  assert (H1 := norm_nonneg (msub g (acc_delta1 acc))).
  assert (H2 := norm_nonneg (msub g (madd (acc_delta1 acc) d))).
  nra.
Qed.

Lemma sample_loop_vB `{!ArmaLaws mat} (iterate iteratePrev : mat)
    (n : nat) : forall (j k : nat) (acc acc' : sample_acc mat),
  sample_loop n f iterate iteratePrev offset j k acc = Ok acc' ->
  0 <= acc_vB acc -> 0 <= acc_vB acc'.
Proof.
  induction n as [|n IH]; intros j k acc acc'; simpl.
  - intros [= <-]. auto.
  - intros E Hv. apply bind_Ok in E. destruct E as (acc1 & E1 & E).
    apply (IH _ _ _ _ E). apply (sample_body_vB _ _ _ _ _ E1 Hv).
Qed.

Lemma estimate_sampleVariance `{!ArmaLaws mat} (st st' : up_store mat)
    (v : Q) :
  estimate f st offset backtrackingBatchSize = Ok (st', v) ->
  0 <= up_sampleVariance st'.
Proof.
  unfold estimate. intros E.
  apply bind_Ok in E. destruct E as (acc & Eloop & E).
  apply bind_Ok in E. destruct E as (avg & _ & [= <- _]). simpl.
  apply (sample_loop_vB _ _ _ _ _ _ Eloop). simpl. lra.
Qed.

(** Lines 87 to 142 divide by [k >= 1] and by [backtrackingBatchSize]
    only: for a backtracking batch of at least one sample they run to their
    end. *)
Lemma to_double_nonzero (n : nat) : (1 <= n)%nat -> ~ to_double n == 0.
Proof.
  intros Hn E. unfold to_double, Qeq in E. simpl in E. lia.
Qed.

Lemma mdiv_nonzero (m : mat) (n : nat) :
  (1 <= n)%nat -> mdiv m (to_double n) = Ok (mdivs m (to_double n)).
Proof.
  intros Hn. unfold mdiv.
  destruct (Qeq_bool (to_double n) 0) eqn:E; [|reflexivity].
  apply Qeq_bool_iff in E. exfalso. apply (to_double_nonzero Hn E).
Qed.

Lemma sample_loop_total (iterate iteratePrev : mat) (n : nat) :
  forall (j k : nat) (acc : sample_acc mat), (1 <= k)%nat ->
  exists acc', sample_loop n f iterate iteratePrev offset j k acc = Ok acc'.
Proof.
  induction n as [|n IH]; intros j k acc Hk; simpl.
  - exists acc. reflexivity.
  - unfold sample_body. rewrite mdiv_nonzero by exact Hk. simpl.
    apply IH. lia.
Qed.

Lemma estimate_total (st : up_store mat) :
  (1 <= backtrackingBatchSize)%nat ->
  exists st' v, estimate f st offset backtrackingBatchSize = Ok (st', v).
Proof.
  intros Hn. unfold estimate.
  match goal with
  | |- context [sample_loop ?n f ?x ?y offset 1 1 ?a] =>
      destruct (sample_loop_total x y n 1 a (le_n 1)) as (acc & ->)
  end.
  simpl. rewrite mdiv_nonzero by exact Hn. simpl. eauto.
Qed.

(** *** The store that [Update] hands to its second line search *)

Lemma estimate_frame (st st' : up_store mat) (v : Q) :
  estimate f st offset backtrackingBatchSize = Ok (st', v) ->
  up_stepSize st' = up_stepSize st /\
  backtrackStepSize (up_this st') = backtrackStepSize (up_this st) /\
  searchParameter (up_this st') = searchParameter (up_this st).
Proof.
  unfold estimate. intros E.
  apply bind_Ok in E. destruct E as (acc & _ & E).
  apply bind_Ok in E. destruct E as (avg & _ & [= <- _]). simpl. auto.
Qed.

Lemma Update_blend_Ok (fuel : nat) (st st2 : up_store mat) (v decay : Q) :
  Update_blend fuel f st offset batchSize backtrackingBatchSize
  = Ok (st2, v, decay) ->
  exists st1 st1' stepSize,
    call_Backtracking fuel f st offset backtrackingBatchSize = Ok st1 /\
    estimate f st1 offset backtrackingBatchSize = Ok (st1', v) /\
    stepSizeDecay (up_gradientNorm st1') (up_sampleVariance st1')
                  batchSize v (NumFunctions f) = Ok decay /\
    smooth (up_stepSize st1') decay batchSize (NumFunctions f)
    = Ok stepSize /\
    st2 = mkUp (up_this st1') stepSize (up_iterate st1') (up_gradient st1')
               (up_gradientNorm st1') (up_sampleVariance st1').
Proof.
  unfold Update_blend. intros E.
  apply bind_Ok in E. destruct E as (st1 & E1 & E).
  apply bind_Ok in E. destruct E as ([st1' v'] & E2 & E).
  apply bind_Ok in E. destruct E as (decay' & E3 & E).
  apply bind_Ok in E. destruct E as (stepSize & E4 & E).
  injection E as <- <- <-.
  exists st1, st1', stepSize. repeat split; assumption.
Qed.

Lemma smooth_Ok (stepSize decay s' : Q) (numFunctions : nat) :
  smooth stepSize decay batchSize numFunctions = Ok s' ->
  ~ to_double numFunctions == 0 /\
  s' == stepSize * (1 - to_double batchSize / to_double numFunctions)
        + decay * (to_double batchSize / to_double numFunctions).
Proof.
  unfold smooth. intros E.
  apply bind_Ok in E. destruct E as (r1 & E1 & E).
  apply bind_Ok in E. destruct E as (r2 & E2 & [= <-]).
  apply fdiv_Ok in E1. apply fdiv_Ok in E2.
  destruct E1 as (N & ->), E2 as (_ & ->). split; [exact N | reflexivity].
Qed.

(** *** The local [stepSizeDecay] *)

Lemma stepSizeDecay_zero (gn sv v : Q) (numFunctions : nat) :
  gn == 0 \/ sv == 0 \/ batchSize = 0%nat \/ v == 0 ->
  stepSizeDecay gn sv batchSize v numFunctions = Ok 0.
Proof.
  unfold stepSizeDecay. intros [Z|[Z|[Z|Z]]].
  - apply nonzero_false in Z. rewrite Z. reflexivity.
  - apply nonzero_false in Z. rewrite Z, andb_false_r. reflexivity.
  - subst batchSize. simpl. rewrite andb_false_r. reflexivity.
  - apply nonzero_false in Z. rewrite Z, andb_false_r. reflexivity.
Qed.

Lemma stepSizeDecay_guard (gn sv v : Q) :
  ~ gn == 0 -> ~ sv == 0 -> batchSize <> 0%nat -> ~ v == 0 ->
  nonzero gn && nonzero sv && negb (batchSize =? 0)%nat && nonzero v = true.
Proof.
  intros Hg Hs Hb Hv.
  apply nonzero_true in Hg, Hs, Hv. apply Nat.eqb_neq in Hb.
  rewrite Hg, Hs, Hv, Hb. reflexivity.
Qed.

Lemma stepSizeDecay_minibatch (gn sv v d : Q) (numFunctions : nat) :
  ~ gn == 0 -> ~ sv == 0 -> batchSize <> 0%nat -> ~ v == 0 ->
  (batchSize < numFunctions)%nat ->
  stepSizeDecay gn sv batchSize v numFunctions = Ok d ->
  d == (1 - (sv / (to_double batchSize - 1)) / (to_double batchSize * gn)) / v.
Proof.
  intros Hg Hs Hb Hv Hlt. unfold stepSizeDecay.
  rewrite stepSizeDecay_guard by assumption.
  apply Nat.ltb_lt in Hlt. rewrite Hlt. intros E.
  apply bind_Ok in E. destruct E as (a & Ea & E).
  apply bind_Ok in E. destruct E as (b & Eb & E).
  apply fdiv_Ok in Ea, Eb, E.
  destruct Ea as (N1 & ->), Eb as (N2 & ->), E as (_ & ->).
  field. repeat split; auto.
  intros Z. apply N2. rewrite Z. ring.
Qed.

Lemma stepSizeDecay_fullbatch (gn sv v d : Q) (numFunctions : nat) :
  ~ gn == 0 -> ~ sv == 0 -> batchSize <> 0%nat -> ~ v == 0 ->
  (numFunctions <= batchSize)%nat ->
  stepSizeDecay gn sv batchSize v numFunctions = Ok d ->
  d = 1 / v.
Proof.
  intros Hg Hs Hb Hv Hle. unfold stepSizeDecay.
  rewrite stepSizeDecay_guard by assumption.
  apply Nat.ltb_ge in Hle. rewrite Hle. intros E.
  apply fdiv_Ok in E. apply E.
Qed.

(** The division by [batchSize - 1] is by zero when [batchSize] is 1 in the
    mini-batch branch. *)
Lemma stepSizeDecay_batchSize_1 (gn sv v : Q) (numFunctions : nat) :
  ~ gn == 0 -> ~ sv == 0 -> ~ v == 0 -> batchSize = 1%nat ->
  (1 < numFunctions)%nat ->
  stepSizeDecay gn sv batchSize v numFunctions = NonFinite.
Proof.
  intros Hg Hs Hv -> Hlt. unfold stepSizeDecay.
  apply nonzero_true in Hg, Hs, Hv. rewrite Hg, Hs, Hv. simpl.
  apply Nat.ltb_lt in Hlt. rewrite Hlt. reflexivity.
Qed.

(** *** The claims on Update *)

(** C2. In a run of [Update], with [gradientNorm] and [sampleVariance] the
    values that the run has just written and [v] its curvature estimate:
    [stepSizeDecay] is 0 unless [gradientNorm], [sampleVariance],
    [batchSize] and [v] are all nonzero; when they all are, it is
    [(1 - (sampleVariance / (batchSize - 1)) / (batchSize * gradientNorm)) / v]
    for [batchSize < NumFunctions()] and [1 / v] for
    [batchSize >= NumFunctions()]. *)
Theorem Update_stepSizeDecay (fuel : nat) (st st2 : up_store mat)
    (v decay : Q) :
  Update_blend fuel f st offset batchSize backtrackingBatchSize
  = Ok (st2, v, decay) ->
  (up_gradientNorm st2 == 0 \/ up_sampleVariance st2 == 0 \/
   batchSize = 0%nat \/ v == 0 -> decay = 0) /\
  (~ up_gradientNorm st2 == 0 -> ~ up_sampleVariance st2 == 0 ->
   batchSize <> 0%nat -> ~ v == 0 ->
   ((batchSize < NumFunctions f)%nat ->
    decay == (1 - (up_sampleVariance st2 / (to_double batchSize - 1))
                  / (to_double batchSize * up_gradientNorm st2)) / v) /\
   ((NumFunctions f <= batchSize)%nat -> decay == 1 / v)).
Proof.
  intros E. apply Update_blend_Ok in E.
  destruct E as (st1 & st1' & s' & _ & _ & Ed & _ & ->). simpl.
  split.
  - intros Z. rewrite (stepSizeDecay_zero _ Z) in Ed.
    injection Ed as <-. reflexivity.
  - intros Hg Hs Hb Hv. split; intros Hn.
    + apply (stepSizeDecay_minibatch Hg Hs Hb Hv Hn Ed).
    + rewrite (stepSizeDecay_fullbatch Hg Hs Hb Hv Hn Ed). reflexivity.
Qed.

(** C4, amended. In a run of [Update] whose curvature estimate [v] is 0,
    the decay is 0 and the blended stepsize, the one handed to the second
    line search, is exactly
    [stepSize * (1 - batchSize / NumFunctions())] for the stepsize left by
    the first line search; the stepsize that [Update] returns is the
    blended one after the shrinks of the second line search, that is, the
    blended one times [backtrackStepSize^n] for some [n >= 0]. *)
Theorem Update_zero_curvature (fuel : nat) (st st1 st2 : up_store mat)
    (v decay : Q) :
  call_Backtracking fuel f st offset backtrackingBatchSize = Ok st1 ->
  Update_blend fuel f st offset batchSize backtrackingBatchSize
  = Ok (st2, v, decay) ->
  v == 0 ->
  decay = 0 /\
  up_stepSize st2
  == up_stepSize st1
     * (1 - to_double batchSize / to_double (NumFunctions f)) /\
  forall (reset : bool) (st' : up_store mat),
    Update fuel f st offset batchSize backtrackingBatchSize reset = Ok st' ->
    exists n, (n <= fuel)%nat /\
      up_stepSize st'
      = shrunk (backtrackStepSize (up_this st)) n (up_stepSize st2).
Proof.
  intros E1 E Hv.
  assert (Eb := E). apply Update_blend_Ok in Eb.
  destruct Eb as (st1a & st1' & s' & E1a & Ee & Ed & Es & ->).
  rewrite E1 in E1a. injection E1a as <-.
  rewrite stepSizeDecay_zero in Ed by auto. injection Ed as <-.
  apply smooth_Ok in Es. destruct Es as (_ & Es).
  destruct (estimate_frame _ Ee) as (Hs & Hb & _).
  destruct (call_Backtracking_Ok _ _ E1) as (Ht & _).
  split; [reflexivity|]. split.
  - simpl. rewrite Es, Hs. ring.
  - intros reset st' EU. unfold Update in EU. rewrite E in EU. simpl in EU.
    apply call_Backtracking_Ok in EU.
    destruct EU as (_ & _ & _ & _ & _ & n & Hn & Hst'). simpl in Hst'.
    exists n. split; [exact Hn|]. rewrite Hst', Hb, Ht. reflexivity.
Qed.

(** C6. The sample variance that [Update] writes is >= 0, whatever the
    gradients of the objective are, each term added to it being a product
    of two norms: this holds when lines 87 to 142 have run, and so when
    [Update] returns. *)
Theorem Update_sampleVariance_nonneg `{!ArmaLaws mat} (fuel : nat)
    (st : up_store mat) :
  (forall (st1 st1' : up_store mat) (v : Q),
     estimate f st1 offset backtrackingBatchSize = Ok (st1', v) ->
     0 <= up_sampleVariance st1') /\
  (forall (reset : bool) (st' : up_store mat),
     Update fuel f st offset batchSize backtrackingBatchSize reset = Ok st' ->
     0 <= up_sampleVariance st').
Proof.
  split.
  - intros st1 st1' v Ee. apply (estimate_sampleVariance _ Ee).
  - unfold Update. intros reset st' E.
    apply bind_Ok in E. destruct E as ([[st2 v] decay] & Eb & E).
    apply call_Backtracking_Ok in E. destruct E as (_ & _ & _ & _ & -> & _).
    apply Update_blend_Ok in Eb.
    destruct Eb as (st1 & st1' & s' & _ & Ee & _ & _ & ->). simpl.
    apply (estimate_sampleVariance _ Ee).
Qed.

(** C8. The [reset] argument of [Update] is not read: two calls that
    differ in it only have the same outcome, the same outputs and the same
    controller afterwards. *)
Theorem Update_reset_irrelevant (fuel : nat) (st : up_store mat)
    (reset1 reset2 : bool) :
  Update fuel f st offset batchSize backtrackingBatchSize reset1
  = Update fuel f st offset batchSize backtrackingBatchSize reset2.
Proof.
  reflexivity.
Qed.

End UpdateProperties.

(** ** The code on matrices of one element *)

#[export] Instance ArmaLaws_mat1 : ArmaLaws mat1.
Proof.
  constructor. intros m. simpl. apply Qabs_nonneg.
Qed.


(** In the same run the iterate is the one passed in. *)
Lemma Backtracking_frame_witness :
  Backtracking 3 (quadratic 0 10) (spec_scenario 900) 0 10
  = Ok (mkBt (fresh (1 # 2) (1 # 10)) (1 # 8) (M1 10) (M1 10) 900) /\
  bt_iterate (mkBt (fresh (1 # 2) (1 # 10)) (1 # 8) (M1 10) (M1 10) 900)
  = bt_iterate (spec_scenario 900).
Proof.
  split; [reflexivity|].
  apply (@Backtracking_frame mat1 _ (quadratic 0 10) 0%nat 10%nat 3%nat
           (spec_scenario 900)
           (mkBt (fresh (1 # 2) (1 # 10)) (1 # 8) (M1 10) (M1 10) 900)).
  reflexivity.
Defined.

(** In the same run the stepsize returned, 1/8, is below the one passed
    in. *)
Lemma Backtracking_monotone_shrink_witness :
  Backtracking 3 (quadratic 0 10) (spec_scenario 900) 0 10
  = Ok (mkBt (fresh (1 # 2) (1 # 10)) (1 # 8) (M1 10) (M1 10) 900) /\
  (1 # 8) <= bt_stepSize (spec_scenario 900).
Proof.
  assert (E : Backtracking 3 (quadratic 0 10) (spec_scenario 900) 0 10
              = Ok (mkBt (fresh (1 # 2) (1 # 10)) (1 # 8) (M1 10) (M1 10)
                         900)) by reflexivity.
  split; [exact E|].
  apply (@Backtracking_monotone_shrink mat1 _ (quadratic 0 10) 0%nat 10%nat
           3%nat (spec_scenario 900) _ E).
  - discriminate.
  - split; discriminate.
Defined.

(** C7 as stated fails for a negative stepsize: from -1 the line search
    returns -1/8, which is larger. *)
Lemma Backtracking_increases_negative_stepSize :
  Backtracking 3 (quadratic 0 10) negative_step 0 10
  = Ok (mkBt (fresh (1 # 2) (1 # 10)) (- 1 # 8) (M1 10) (M1 10) 1100) /\
  ~ (- 1 # 8) <= bt_stepSize negative_step.
Proof.
  split; [reflexivity|]. intros L. apply L. reflexivity.
Qed.

(** A run of [Update] in the mini-batch branch: gradient norm 1, sample
    variance 1/2, curvature 3, batch size 4 of 10. *)
Lemma Update_stepSizeDecay_witness :
  exists (st2 : up_store mat1) (v decay : Q),
    Update_blend 0 (shifted 10) noisy_start 0 4 3 = Ok (st2, v, decay) /\
    up_gradientNorm st2 == 1 /\ up_sampleVariance st2 == 1 # 2 /\
    v == 3 /\
    decay == (1 - ((1 # 2) / (4 - 1)) / (4 * 1)) / 3.
Proof.
  eexists. eexists. eexists. split; [vm_compute; reflexivity|].
  split; [reflexivity|]. split; [reflexivity|]. split; [reflexivity|].
  assert (D := @Update_stepSizeDecay mat1 _ (shifted 10) 0%nat 4%nat 3%nat
                 0%nat noisy_start).
  specialize (D _ _ _ ltac:(vm_compute; reflexivity)).
  destruct D as (_ & D).
  destruct D as (D & _); try discriminate.
  rewrite D; [reflexivity | simpl; lia].
Defined.

(** C4 as stated fails: the curvature is forced to 0 and the blended
    stepsize is 1.5 * (1 - 2/4) = 0.75, but the second line search rejects
    it and [Update] returns 0.375. *)
Lemma Update_zero_curvature_shrunk :
  exists (st1 st2 st' : up_store mat1) (decay : Q),
    call_Backtracking 1 (quadratic 2 4) flat_start 0 3 = Ok st1 /\
    Update_blend 1 (quadratic 2 4) flat_start 0 2 3 = Ok (st2, 0, decay) /\
    Update 1 (quadratic 2 4) flat_start 0 2 3 false = Ok st' /\
    up_stepSize st1
    * (1 - to_double 2 / to_double (NumFunctions (quadratic 2 4))) == 3 # 4 /\
    up_stepSize st' == 3 # 8 /\
    ~ up_stepSize st'
      == up_stepSize st1
         * (1 - to_double 2 / to_double (NumFunctions (quadratic 2 4))).
Proof.
  eexists. eexists. eexists. eexists.
  split; [vm_compute; reflexivity|].
  split; [vm_compute; reflexivity|].
  split; [vm_compute; reflexivity|].
  split; [reflexivity|]. split; [reflexivity|]. discriminate.
Qed.

(** In that run the blended stepsize is the smoothed one. *)
Lemma Update_zero_curvature_witness :
  exists (st1 st2 : up_store mat1) (decay : Q),
    call_Backtracking 1 (quadratic 2 4) flat_start 0 3 = Ok st1 /\
    Update_blend 1 (quadratic 2 4) flat_start 0 2 3 = Ok (st2, 0, decay) /\
    0 == 0 /\
    up_stepSize st2
    == up_stepSize st1
       * (1 - to_double 2 / to_double (NumFunctions (quadratic 2 4))).
Proof.
  edestruct (@Update_zero_curvature mat1 _ (quadratic 2 4) 0%nat 2%nat
               3%nat 1%nat flat_start) as (_ & X & _).
  - vm_compute; reflexivity.
  - vm_compute; reflexivity.
  - reflexivity.
  - eexists. eexists. eexists.
    split; [vm_compute; reflexivity|].
    split; [vm_compute; reflexivity|].
    split; [reflexivity | exact X].
Defined.

(** A run of [Update] over three samples with different gradients: the
    sample variance written is 1/2. *)
Lemma Update_sampleVariance_nonneg_witness :
  exists st' : up_store mat1,
    Update 0 (shifted 10) noisy_start 0 4 3 false = Ok st' /\
    0 <= up_sampleVariance st' /\ up_sampleVariance st' == 1 # 2.
Proof.
  eexists. split; [vm_compute; reflexivity|]. split; [|reflexivity].
  apply (@Update_sampleVariance_nonneg mat1 _ (shifted 10) 0%nat 4%nat 3%nat
           ArmaLaws_mat1 0%nat noisy_start) with (reset := false).
  vm_compute; reflexivity.
Defined.

(** With the batch size equal to the number of functions and the curvature
    0, the blended stepsize is 0. *)
Lemma Update_blend_full_batch {mat : Type} `{Arma mat}
    (f : DecomposableFunctionType mat) (offset batchSize bbs fuel : nat)
    (st st2 : up_store mat) (v decay : Q) :
  Update_blend fuel f st offset batchSize bbs = Ok (st2, v, decay) ->
  v == 0 -> batchSize = NumFunctions f ->
  up_stepSize st2 == 0.
Proof.
  intros E Hv Hb. apply Update_blend_Ok in E.
  destruct E as (st1 & st1' & s' & _ & _ & Ed & Es & ->). simpl.
  rewrite stepSizeDecay_zero in Ed by auto. injection Ed as <-.
  apply smooth_Ok in Es. destruct Es as (N & ->). rewrite <- Hb in *.
  field. exact N.
Qed.

(** C9. A call to [Update] that meets the preconditions and returns the
    stepsize 0: on [0.5 * (x - 2)^2] with 3 samples, batch size 3, fresh
    controller, iterate 6, gradient 4 and stepsize 1.5, the curvature is
    replaced by 0, the blend gives 0, and the second line search accepts 0
    without running its loop body, the two sides of its test being
    equal. *)
Theorem Update_returns_zero_stepSize :
  (0 < backtrackStepSize (up_this flat_start) < 1 /\
   0 < searchParameter (up_this flat_start) /\
   0 < up_stepSize flat_start /\
   (1 <= 3)%nat /\ (0 + 3 <= NumFunctions (quadratic 2 3))%nat) /\
  exists (st2 st' : up_store mat1) (decay : Q),
    Update_blend 0 (quadratic 2 3) flat_start 0 3 3 = Ok (st2, 0, decay) /\
    up_stepSize st2 == 0 /\
    ~ up_gradientNorm st2 == 0 /\
    evalUpdate (quadratic 2 3) (bt_of st2) 0 3
    == Evaluate (quadratic 2 3) (up_iterate st2) 0 3
       - searchParameter (up_this st2) * up_stepSize st2
         * up_gradientNorm st2 /\
    rejected (quadratic 2 3) (bt_of st2) 0 3 = false /\
    Update 0 (quadratic 2 3) flat_start 0 3 3 false = Ok st' /\
    up_stepSize st' == 0.
Proof.
  split.
  - repeat split; try reflexivity; try discriminate; simpl; lia.
  - eexists. eexists. eexists.
    split; [vm_compute; reflexivity|].
    split; [reflexivity|]. split; [discriminate|].
    split; [reflexivity|]. split; [reflexivity|].
    split; [vm_compute; reflexivity|]. reflexivity.
Qed.

(** * Further properties of the controller *)

Section UpdateComposition.

Context {mat : Type} `{Arma mat}.
Variable f : DecomposableFunctionType mat.
Variables offset batchSize backtrackingBatchSize : nat.

(** *** The phases of [Update] *)

Lemma Update_Ok (fuel : nat) (st st' : up_store mat) (reset : bool) :
  Update fuel f st offset batchSize backtrackingBatchSize reset = Ok st' ->
  exists (st2 : up_store mat) (v decay : Q),
    Update_blend fuel f st offset batchSize backtrackingBatchSize
    = Ok (st2, v, decay) /\
    call_Backtracking fuel f st2 offset backtrackingBatchSize = Ok st'.
Proof.
  unfold Update. intros E.
  apply bind_Ok in E. destruct E as ([[st2 v] decay] & Eb & E).
  exists st2, v, decay. split; assumption.
Qed.

Lemma Backtracking_accepted (fuel : nat) (st st' : bt_store mat) :
  Backtracking fuel f st offset backtrackingBatchSize = Ok st' ->
  rejected f st' offset backtrackingBatchSize = false.
Proof.
  intros E. apply Backtracking_Ok in E.
  destruct E as (n & _ & -> & Hacc & _). exact Hacc.
Qed.



Lemma estimate_iterate (st st' : up_store mat) (v : Q) :
  estimate f st offset backtrackingBatchSize = Ok (st', v) ->
  up_iterate st'
  = msub (up_iterate st) (scale (up_stepSize st) (up_gradient st)) /\
  iteratePrev (up_this st') = up_iterate st'.
Proof.
  unfold estimate. intros E.
  apply bind_Ok in E. destruct E as (acc & _ & E).
  apply bind_Ok in E. destruct E as (avg & _ & [= <- _]). simpl. auto.
Qed.


(** What a run of [Update] that returns went through: the stores after the
    first line search, after lines 87 to 142 and after the blend. *)
Lemma Update_phases (fuel : nat) (st st' : up_store mat) (reset : bool) :
  Update fuel f st offset batchSize backtrackingBatchSize reset = Ok st' ->
  exists (st1 st1' st2 : up_store mat) (v decay : Q),
    call_Backtracking fuel f st offset backtrackingBatchSize = Ok st1 /\
    estimate f st1 offset backtrackingBatchSize = Ok (st1', v) /\
    Update_blend fuel f st offset batchSize backtrackingBatchSize
    = Ok (st2, v, decay) /\
    call_Backtracking fuel f st2 offset backtrackingBatchSize = Ok st' /\
    up_this st2 = up_this st1' /\ up_iterate st2 = up_iterate st1' /\
    up_gradient st2 = up_gradient st1' /\
    up_gradientNorm st2 = up_gradientNorm st1' /\
    up_sampleVariance st2 = up_sampleVariance st1'.
Proof.
  intros E. apply Update_Ok in E. destruct E as (st2 & v & decay & Eb & E2).
  assert (Eb' := Eb). apply Update_blend_Ok in Eb'.
  destruct Eb' as (st1 & st1' & s' & E1 & Ee & _ & _ & ->).
  eexists st1, st1', _, v, decay. simpl.
  split; [exact E1|]. split; [exact Ee|]. split; [exact Eb|].
  split; [exact E2|]. repeat split.
Qed.

(** *** What [Update] leaves behind *)

(** On return from [Update] the previous iterate kept by the controller is
    the iterate returned, which is the iterate passed in minus the gradient
    passed in times the stepsize left by the first line search; the
    configuration read through the accessors is the one before the call. *)
Theorem Update_iterate_and_controller (fuel : nat) (st st' : up_store mat)
    (reset : bool) :
  Update fuel f st offset batchSize backtrackingBatchSize reset = Ok st' ->
  iteratePrev (up_this st') = up_iterate st' /\
  BacktrackStepSize (up_this st') = BacktrackStepSize (up_this st) /\
  SearchParameter (up_this st') = SearchParameter (up_this st) /\
  exists n, (n <= fuel)%nat /\
    up_iterate st'
    = msub (up_iterate st)
           (scale (shrunk (backtrackStepSize (up_this st)) n (up_stepSize st))
                  (up_gradient st)).
Proof.
  intros E. apply Update_phases in E.
  destruct E as (st1 & st1' & st2 & v & decay & E1 & Ee & _ & E2
                 & Ht & Hi & _).
  apply call_Backtracking_Ok in E1.
  destruct E1 as (Ht1 & Hi1 & Hg1 & _ & _ & n & Hn & Hs1).
  apply call_Backtracking_Ok in E2.
  destruct E2 as (Ht2 & Hi2 & _).
  destruct (estimate_iterate _ Ee) as (Hit & Hprev).
  assert (Ef := Ee). apply estimate_frame in Ef.
  destruct Ef as (_ & Hb & Hc).
  unfold BacktrackStepSize, SearchParameter.
  rewrite Ht2, Hi2, Ht, Hi, Hb, Hc, Ht1. repeat split; auto.
  exists n. split; [exact Hn|]. rewrite Hit, Hi1, Hg1, Hs1. reflexivity.
Qed.



(** Running [Backtracking] on the store it has returned changes nothing,
    and exits without running the loop body. *)
Theorem Backtracking_idempotent (fuel fuel' : nat) (st st' : bt_store mat) :
  Backtracking fuel f st offset backtrackingBatchSize = Ok st' ->
  Backtracking fuel' f st' offset backtrackingBatchSize = Ok st'.
Proof.
  intros E. apply Backtracking_accepted in E.
  apply Backtracking_Ok. exists 0%nat.
  repeat split; [lia | exact E | intros k Hk; lia].
Qed.

(** [Update] writes a gradient norm that is >= 0. *)
Theorem Update_gradientNorm_nonneg (fuel : nat) (st st' : up_store mat)
    (reset : bool) :
  Update fuel f st offset batchSize backtrackingBatchSize reset = Ok st' ->
  0 <= up_gradientNorm st'.
Proof.
  intros E. apply Update_phases in E.
  destruct E as (st1 & st1' & st2 & v & decay & _ & Ee & _ & E2
                 & _ & _ & _ & Hn & _).
  apply call_Backtracking_Ok in E2. destruct E2 as (_ & _ & _ & -> & _).
  rewrite Hn. unfold estimate in Ee.
  apply bind_Ok in Ee. destruct Ee as (acc & _ & Ee).
  apply bind_Ok in Ee. destruct Ee as (avg & _ & [= <- _]). simpl.
  unfold pow2. change (norm avg ^ 2) with (norm avg * norm avg). nra.
Qed.

End UpdateComposition.

Section UpdateEstimates.

Context {mat : Type} `{Arma mat}.
Variable f : DecomposableFunctionType mat.
Variables offset batchSize backtrackingBatchSize : nat.

(** *** The sums of the for loop *)

Lemma sample_loop_sums (iterate ip : mat) (n : nat) :
  forall (j k : nat) (acc acc' : sample_acc mat),
  sample_loop n f iterate ip offset j k acc = Ok acc' ->
  acc_gradient acc'
  = fold_left madd
      (map (fun i => Gradient f iterate (offset + i) 1) (seq j n))
      (acc_gradient acc) /\
  acc_gradPrevIterate acc'
  = fold_left madd
      (map (fun i => Gradient f ip (offset + i) 1) (seq j n))
      (acc_gradPrevIterate acc).
Proof.
  induction n as [|n IH]; intros j k acc acc'; simpl.
  - intros [= <-]. auto.
  - intros E. apply bind_Ok in E. destruct E as (acc1 & E1 & E).
    apply IH in E. destruct E as (-> & ->).
    unfold sample_body in E1.
    apply bind_Ok in E1. destruct E1 as (d & _ & [= <-]). simpl. auto.
Qed.

Lemma mdiv_Ok (m avg : mat) (s : Q) :
  mdiv m s = Ok avg -> ~ s == 0 /\ avg = mdivs m s.
Proof.
  unfold mdiv. destruct (Qeq_bool s 0) eqn:E; [discriminate|].
  intros [= <-]. split; [apply Qeq_bool_neq; exact E | reflexivity].
Qed.

Lemma to_double_zero (n : nat) : to_double n == 0 -> n = 0%nat.
Proof.
  intros E. unfold to_double, Qeq in E. simpl in E. lia.
Qed.

(** Lines 87 to 142 in closed form. *)
Lemma estimate_closed_form (st st' : up_store mat) (v : Q) :
  estimate f st offset backtrackingBatchSize = Ok (st', v) ->
  (1 <= backtrackingBatchSize)%nat /\
  up_gradient st'
  = gradient_sum f (up_iterate st') offset backtrackingBatchSize /\
  up_gradientNorm st'
  = pow2 (norm (mdivs (up_gradient st') (to_double backtrackingBatchSize))) /\
  v = curvature
        (trace (mmul
           (trans (msub (up_iterate st')
                        (previous_iterate (up_this st) (up_iterate st'))))
           (msub (up_gradient st')
                 (gradient_sum f
                    (previous_iterate (up_this st) (up_iterate st'))
                    offset backtrackingBatchSize))))
        (pow2 (norm (msub (up_iterate st')
                          (previous_iterate (up_this st) (up_iterate st'))))).
Proof.
  unfold estimate. intros E.
  apply bind_Ok in E. destruct E as (acc & Eloop & E).
  apply bind_Ok in E. destruct E as (avg & Eavg & E).
  apply sample_loop_sums in Eloop. simpl in Eloop.
  destruct Eloop as (Hg & Hp).
  apply mdiv_Ok in Eavg. destruct Eavg as (Hn & ->).
  injection E as <- <-. simpl.
  unfold gradient_sum, previous_iterate. rewrite <- Hg, <- Hp.
  repeat split.
  destruct backtrackingBatchSize; [|lia].
  exfalso. apply Hn. reflexivity.
Qed.

(** The gradient that [Update] returns is the sum, not the mean, of the
    gradients at the returned iterate of the samples of the backtracking
    batch, taken one at a time; the gradient norm it returns is the square
    of the norm of that sum divided by the size of the batch. *)
Theorem Update_gradient_closed_form (fuel : nat) (st st' : up_store mat)
    (reset : bool) :
  Update fuel f st offset batchSize backtrackingBatchSize reset = Ok st' ->
  up_gradient st'
  = gradient_sum f (up_iterate st') offset backtrackingBatchSize /\
  up_gradientNorm st'
  = pow2 (norm (mdivs (up_gradient st') (to_double backtrackingBatchSize))).
Proof.
  intros E. apply Update_phases in E.
  destruct E as (st1 & st1' & st2 & v & decay & _ & Ee & _ & E2
                 & _ & Hi & Hg & Hn & _).
  apply call_Backtracking_Ok in E2.
  destruct E2 as (_ & -> & -> & -> & _).
  rewrite Hi, Hg, Hn.
  apply estimate_closed_form in Ee. destruct Ee as (_ & E1 & E2 & _).
  split; assumption.
Qed.

(** The curvature estimate of a run of [Update] is the quotient
    [trace((x - p)^T * (G(x) - G(p))) / norm(x - p)^2], where [x] is the new
    iterate, [p] the previous iterate of the controller (zeros of the shape
    of [x] when it is empty) and [G] the sum of the gradients of the samples
    of the backtracking batch; it is 0 when [norm(x - p)^2] is 0. *)
Theorem Update_curvature_closed_form (fuel : nat) (st st2 : up_store mat)
    (v decay : Q) :
  Update_blend fuel f st offset batchSize backtrackingBatchSize
  = Ok (st2, v, decay) ->
  v = curvature
        (trace (mmul
           (trans (msub (up_iterate st2)
                        (previous_iterate (up_this st) (up_iterate st2))))
           (msub (gradient_sum f (up_iterate st2) offset
                               backtrackingBatchSize)
                 (gradient_sum f
                    (previous_iterate (up_this st) (up_iterate st2))
                    offset backtrackingBatchSize))))
        (pow2 (norm (msub (up_iterate st2)
                          (previous_iterate (up_this st) (up_iterate st2)))))
  /\
  (pow2 (norm (msub (up_iterate st2)
                    (previous_iterate (up_this st) (up_iterate st2)))) == 0 ->
   v = 0).
Proof.
  intros E. apply Update_blend_Ok in E.
  destruct E as (st1 & st1' & s' & E1 & Ee & _ & _ & ->). simpl.
  apply call_Backtracking_Ok in E1. destruct E1 as (Ht & _).
  apply estimate_closed_form in Ee. destruct Ee as (_ & Hg & _ & Hv).
  rewrite Ht, Hg in Hv. split; [exact Hv|].
  intros Z. rewrite Hv. unfold curvature, fdiv.
  apply Qeq_bool_iff in Z. rewrite Z. reflexivity.
Qed.

(** *** Small backtracking batches *)

(** With a backtracking batch of one sample the for loop does not run: the
    sample variance written is 0, the gradient returned is the gradient of
    the sample [offset], the decay is 0 whatever the curvature, and the
    blended stepsize is the smoothed one. *)
Theorem Update_single_sample (fuel : nat) (st st1 st2 : up_store mat)
    (v decay : Q) :
  backtrackingBatchSize = 1%nat ->
  call_Backtracking fuel f st offset backtrackingBatchSize = Ok st1 ->
  Update_blend fuel f st offset batchSize backtrackingBatchSize
  = Ok (st2, v, decay) ->
  up_sampleVariance st2 = 0 /\
  up_gradient st2 = Gradient f (up_iterate st2) offset 1 /\
  decay = 0 /\
  up_stepSize st2
  == up_stepSize st1
     * (1 - to_double batchSize / to_double (NumFunctions f)).
Proof.
  intros Hb E1 E. apply Update_blend_Ok in E.
  destruct E as (st1a & st1' & s' & E1a & Ee & Ed & Es & ->). simpl.
  rewrite E1 in E1a. injection E1a as <-.
  assert (Ef := Ee). apply estimate_frame in Ef. destruct Ef as (Hs & _).
  assert (Ec := Ee). apply estimate_closed_form in Ec.
  destruct Ec as (_ & Hg & _).
  assert (Hsv : up_sampleVariance st1' = 0).
  { unfold estimate in Ee. rewrite Hb in Ee. simpl in Ee.
    injection Ee as <- _. reflexivity. }
  rewrite Hsv in Ed.
  rewrite stepSizeDecay_zero in Ed by (right; left; reflexivity).
  injection Ed as <-.
  apply smooth_Ok in Es. destruct Es as (_ & Es).
  repeat split; auto.
  - rewrite Hg, Hb. reflexivity.
  - rewrite Es, Hs. ring.
Qed.

(** *** Divisions by zero *)

Lemma stepSizeDecay_fuel (gn sv v : Q) (numFunctions : nat) :
  stepSizeDecay gn sv batchSize v numFunctions <> OutOfFuel.
Proof.
  unfold stepSizeDecay, fdiv.
  repeat match goal with
         | |- context [if ?c then _ else _] => destruct c; simpl
         end; discriminate.
Qed.

(** When the first line search returns, on a backtracking batch that is
    not empty, and the objective has no functions, the blend divides
    [batchSize] by [NumFunctions() = 0]: the stepsize it computes is an
    infinity or a NaN. *)
Theorem Update_division_by_zero (fuel : nat) (st st1 : up_store mat)
    (reset : bool) :
  call_Backtracking fuel f st offset backtrackingBatchSize = Ok st1 ->
  (1 <= backtrackingBatchSize)%nat ->
  NumFunctions f = 0%nat ->
  Update fuel f st offset batchSize backtrackingBatchSize reset = NonFinite.
Proof.
  intros E1 Hb Hz. unfold Update, Update_blend. rewrite E1. simpl.
  destruct (@estimate_total mat _ f offset backtrackingBatchSize st1)
    as (st1' & v & ->); [exact Hb|]. simpl.
  destruct (stepSizeDecay _ _ _ _ _) eqn:Ed; simpl.
  - unfold smooth. rewrite Hz. reflexivity.
  - reflexivity.
  - exfalso. apply (stepSizeDecay_fuel _ _ _ _ Ed).
Qed.

(** With [batchSize = 1] in the mini-batch branch, when the gradient norm,
    the sample variance and the curvature of the run are all nonzero, the
    decay divides by [batchSize - 1 = 0] and [Update] has no finite
    result. *)
Theorem Update_batchSize_one (fuel : nat) (st st1 st1' : up_store mat)
    (v : Q) (reset : bool) :
  call_Backtracking fuel f st offset backtrackingBatchSize = Ok st1 ->
  estimate f st1 offset backtrackingBatchSize = Ok (st1', v) ->
  ~ up_gradientNorm st1' == 0 -> ~ up_sampleVariance st1' == 0 ->
  ~ v == 0 ->
  batchSize = 1%nat -> (1 < NumFunctions f)%nat ->
  Update fuel f st offset batchSize backtrackingBatchSize reset = NonFinite.
Proof.
  intros E1 Ee Hg Hs Hv Hb Hn. unfold Update, Update_blend.
  rewrite E1. simpl. rewrite Ee. simpl.
  rewrite stepSizeDecay_batchSize_1; auto.
Qed.

(** *** The blend at the ends of its range *)

(** With [batchSize = NumFunctions()] the blended stepsize is the decay
    alone, the stepsize of the first line search having weight 0; with
    [batchSize = 0] the decay is 0 and the blended stepsize is the stepsize
    of the first line search. *)
Theorem Update_blend_extremes (fuel : nat) (st st1 st2 : up_store mat)
    (v decay : Q) :
  call_Backtracking fuel f st offset backtrackingBatchSize = Ok st1 ->
  Update_blend fuel f st offset batchSize backtrackingBatchSize
  = Ok (st2, v, decay) ->
  (batchSize = NumFunctions f -> up_stepSize st2 == decay) /\
  (batchSize = 0%nat -> decay = 0 /\ up_stepSize st2 == up_stepSize st1).
Proof.
  intros E1 E. apply Update_blend_Ok in E.
  destruct E as (st1a & st1' & s' & E1a & Ee & Ed & Es & ->). simpl.
  rewrite E1 in E1a. injection E1a as <-.
  apply estimate_frame in Ee. destruct Ee as (Hs & _).
  apply smooth_Ok in Es. destruct Es as (Hn & Es). split.
  - intros Hb. rewrite Es, <- Hb in *. field. exact Hn.
  - intros Hb. rewrite stepSizeDecay_zero in Ed by auto.
    injection Ed as <-. split; [reflexivity|].
    rewrite Es, Hs, Hb. change (to_double 0) with 0. field. exact Hn.
Qed.

End UpdateEstimates.

Section Locality.

Context {mat : Type} `{Arma mat}.
Variables f g : DecomposableFunctionType mat.
Variables offset batchSize backtrackingBatchSize : nat.

(** The two objectives have the same value over the backtracking batch. *)
Hypothesis same_Evaluate : forall x : mat,
  Evaluate f x offset backtrackingBatchSize
  = Evaluate g x offset backtrackingBatchSize.

Lemma bt_while_ext (obj : Q) (fuel : nat) :
  forall (st : bt_store mat) (u : Q),
  bt_while fuel f offset backtrackingBatchSize obj st u
  = bt_while fuel g offset backtrackingBatchSize obj st u.
Proof.
  induction fuel as [|fuel IH]; intros st u; simpl; [reflexivity|].
  destruct (bt_cond st obj u); [|reflexivity].
  unfold evalUpdate. rewrite same_Evaluate. apply IH.
Qed.

Lemma Backtracking_ext (fuel : nat) (st : bt_store mat) :
  Backtracking fuel f st offset backtrackingBatchSize
  = Backtracking fuel g st offset backtrackingBatchSize.
Proof.
  unfold Backtracking, evalUpdate. rewrite !same_Evaluate.
  apply bt_while_ext.
Qed.

Lemma call_Backtracking_ext (fuel : nat) (st : up_store mat) :
  call_Backtracking fuel f st offset backtrackingBatchSize
  = call_Backtracking fuel g st offset backtrackingBatchSize.
Proof.
  unfold call_Backtracking. rewrite Backtracking_ext. reflexivity.
Qed.

(** The two objectives have the same gradients on each sample of the
    backtracking batch (on the sample [offset] when the batch is empty). *)
Hypothesis same_Gradient : forall (x : mat) (i : nat),
  (i < Nat.max 1 backtrackingBatchSize)%nat ->
  Gradient f x (offset + i) 1 = Gradient g x (offset + i) 1.

Lemma sample_loop_ext (iterate ip : mat) (n : nat) :
  forall (j k : nat) (acc : sample_acc mat),
  (j + n <= Nat.max 1 backtrackingBatchSize)%nat ->
  sample_loop n f iterate ip offset j k acc
  = sample_loop n g iterate ip offset j k acc.
Proof.
  induction n as [|n IH]; intros j k acc Hj; simpl; [reflexivity|].
  unfold sample_body. rewrite !(same_Gradient _ (i := j)) by lia.
  destruct (mdiv _ _); simpl; try reflexivity.
  apply IH. lia.
Qed.

Lemma estimate_ext (st : up_store mat) :
  estimate f st offset backtrackingBatchSize
  = estimate g st offset backtrackingBatchSize.
Proof.
  unfold estimate.
  assert (E0 : forall x, Gradient f x offset 1 = Gradient g x offset 1).
  { intros x. rewrite <- (Nat.add_0_r offset). apply same_Gradient. lia. }
  rewrite !E0. rewrite sample_loop_ext by lia. reflexivity.
Qed.

(** [Update] reads the objective through [NumFunctions()], through
    [Evaluate] over the backtracking batch and through [Gradient] on the
    single samples of that batch, and through nothing else: on two
    objectives that agree there it has the same outcome. *)
Theorem Update_locality (fuel : nat) (st : up_store mat) (reset : bool) :
  NumFunctions f = NumFunctions g ->
  Update fuel f st offset batchSize backtrackingBatchSize reset
  = Update fuel g st offset batchSize backtrackingBatchSize reset.
Proof.
  intros Hn. unfold Update, Update_blend.
  rewrite call_Backtracking_ext.
  destruct (call_Backtracking fuel g st offset backtrackingBatchSize)
    as [st1| |]; simpl; try reflexivity.
  rewrite estimate_ext.
  destruct (estimate g st1 offset backtrackingBatchSize) as [[st1' v]| |];
    simpl; try reflexivity.
  rewrite Hn.
  destruct (stepSizeDecay _ _ _ _ _) as [decay| |]; simpl; try reflexivity.
  destruct (smooth _ _ _ _) as [s'| |]; simpl; try reflexivity.
  apply call_Backtracking_ext.
Qed.

End Locality.

(** ** The further properties on matrices of one element *)

(** A run of [Update] on [shifted] from [noisy_start], batch size 4 of 10
    over three samples: the step of 0.25 along the gradient 12 moves the
    iterate from 5 to 2, which is also the previous iterate afterwards. *)
Lemma Update_iterate_and_controller_witness :
  exists st' : up_store mat1,
    Update 0 (shifted 10) noisy_start 0 4 3 false = Ok st' /\
    iteratePrev (up_this st') = up_iterate st' /\
    up_iterate st' = M1 (8 # 4).
Proof.
  eexists. split; [vm_compute; reflexivity|]. split; [|reflexivity].
  apply (@Update_iterate_and_controller mat1 _ (shifted 10) 0%nat 4%nat
           3%nat 0%nat noisy_start _ false).
  vm_compute; reflexivity.
Defined.



(** The store returned in the scenario of the specification with the
    gradient norm 900 is returned again, with no fuel. *)
Lemma Backtracking_idempotent_witness :
  Backtracking 3 (quadratic 0 10) (spec_scenario 900) 0 10
  = Ok (mkBt (fresh (1 # 2) (1 # 10)) (1 # 8) (M1 10) (M1 10) 900) /\
  Backtracking 0 (quadratic 0 10)
    (mkBt (fresh (1 # 2) (1 # 10)) (1 # 8) (M1 10) (M1 10) 900) 0 10
  = Ok (mkBt (fresh (1 # 2) (1 # 10)) (1 # 8) (M1 10) (M1 10) 900).
Proof.
  split; [reflexivity|].
  apply (@Backtracking_idempotent mat1 _ (quadratic 0 10) 0%nat 10%nat
           3%nat 0%nat (spec_scenario 900)).
  reflexivity.
Defined.

Lemma Update_gradientNorm_nonneg_witness :
  exists st' : up_store mat1,
    Update 0 (shifted 10) noisy_start 0 4 3 false = Ok st' /\
    up_gradientNorm st' == 1 /\ 0 <= up_gradientNorm st'.
Proof.
  eexists. split; [vm_compute; reflexivity|]. split; [reflexivity|].
  apply (@Update_gradientNorm_nonneg mat1 _ (shifted 10) 0%nat 4%nat 3%nat
           0%nat noisy_start _ false).
  vm_compute; reflexivity.
Defined.

(** In that run the gradient returned is 2 + 1 + 0 = 3, the sum over the
    samples 0, 1, 2 at the iterate 2, and the gradient norm is 1. *)
Lemma Update_gradient_closed_form_witness :
  exists st' : up_store mat1,
    Update 0 (shifted 10) noisy_start 0 4 3 false = Ok st' /\
    entry (up_gradient st') == 3 /\
    up_gradient st' = gradient_sum (shifted 10) (up_iterate st') 0 3.
Proof.
  eexists. split; [vm_compute; reflexivity|]. split; [reflexivity|].
  apply (@Update_gradient_closed_form mat1 _ (shifted 10) 0%nat 4%nat 3%nat
           0%nat noisy_start _ false).
  vm_compute; reflexivity.
Defined.

(** In that run the curvature is 2 * 6 / 4 = 3. *)
Lemma Update_curvature_closed_form_witness :
  exists (st2 : up_store mat1) (v decay : Q),
    Update_blend 0 (shifted 10) noisy_start 0 4 3 = Ok (st2, v, decay) /\
    v == 3 /\
    v = curvature
          (trace (mmul
             (trans (msub (up_iterate st2)
                          (previous_iterate (up_this noisy_start)
                                            (up_iterate st2))))
             (msub (gradient_sum (shifted 10) (up_iterate st2) 0 3)
                   (gradient_sum (shifted 10)
                      (previous_iterate (up_this noisy_start)
                                        (up_iterate st2)) 0 3))))
          (pow2 (norm (msub (up_iterate st2)
                            (previous_iterate (up_this noisy_start)
                                              (up_iterate st2))))).
Proof.
  eexists. eexists. eexists. split; [vm_compute; reflexivity|].
  split; [reflexivity|].
  eapply (@Update_curvature_closed_form mat1 _ (shifted 10) 0%nat 4%nat
            3%nat 0%nat noisy_start).
  vm_compute; reflexivity.
Defined.

(** The same start with a backtracking batch of the sample 0 alone. *)
Lemma Update_single_sample_witness :
  exists (st1 st2 : up_store mat1) (v decay : Q),
    call_Backtracking 2 (shifted 10) noisy_start 0 1 = Ok st1 /\
    Update_blend 2 (shifted 10) noisy_start 0 4 1 = Ok (st2, v, decay) /\
    up_sampleVariance st2 = 0 /\ decay = 0.
Proof.
  edestruct (@Update_single_sample mat1 _ (shifted 10) 0%nat 4%nat 1%nat
               2%nat noisy_start) as (Hsv & _ & Hd & _).
  - reflexivity.
  - vm_compute; reflexivity.
  - vm_compute; reflexivity.
  - eexists. eexists. eexists. eexists.
    split; [vm_compute; reflexivity|].
    split; [vm_compute; reflexivity|].
    split; [exact Hsv | exact Hd].
Defined.

(** An objective with no functions. *)
Lemma Update_division_by_zero_witness :
  exists st1 : up_store mat1,
    call_Backtracking 0 (quadratic 2 0) flat_start 0 3 = Ok st1 /\
    NumFunctions (quadratic 2 0) = 0%nat /\
    Update 0 (quadratic 2 0) flat_start 0 2 3 false = NonFinite.
Proof.
  eexists. split; [vm_compute; reflexivity|]. split; [reflexivity|].
  eapply (@Update_division_by_zero mat1 _ (quadratic 2 0) 0%nat 2%nat 3%nat
            0%nat flat_start).
  - vm_compute; reflexivity.
  - simpl; lia.
  - reflexivity.
Defined.

(** The run from [noisy_start] with the batch size 1: gradient norm 1,
    sample variance 1/2 and curvature 3 are nonzero. *)
Lemma Update_batchSize_one_witness :
  exists (st1 st1' : up_store mat1) (v : Q),
    call_Backtracking 0 (shifted 10) noisy_start 0 3 = Ok st1 /\
    estimate (shifted 10) st1 0 3 = Ok (st1', v) /\
    Update 0 (shifted 10) noisy_start 0 1 3 false = NonFinite.
Proof.
  eexists. eexists. eexists.
  split; [vm_compute; reflexivity|]. split; [vm_compute; reflexivity|].
  eapply (@Update_batchSize_one mat1 _ (shifted 10) 0%nat 1%nat 3%nat
            0%nat noisy_start).
  - vm_compute; reflexivity.
  - vm_compute; reflexivity.
  - discriminate.
  - discriminate.
  - discriminate.
  - reflexivity.
  - simpl; lia.
Defined.

(** The run from [noisy_start] on three functions with the batch size 3:
    the blended stepsize is the decay, 1/3. *)
Lemma Update_blend_extremes_witness :
  exists (st1 st2 : up_store mat1) (v decay : Q),
    call_Backtracking 0 (shifted 3) noisy_start 0 3 = Ok st1 /\
    Update_blend 0 (shifted 3) noisy_start 0 3 3 = Ok (st2, v, decay) /\
    decay == 1 # 3 /\ up_stepSize st2 == decay.
Proof.
  edestruct (@Update_blend_extremes mat1 _ (shifted 3) 0%nat 3%nat 3%nat
               0%nat noisy_start) as (Hfull & _).
  - vm_compute; reflexivity.
  - vm_compute; reflexivity.
  - eexists. eexists. eexists. eexists.
    split; [vm_compute; reflexivity|].
    split; [vm_compute; reflexivity|].
    split; [reflexivity|]. apply Hfull. reflexivity.
Defined.

(** [shifted] and [masked 3] agree on the samples 0, 1, 2 and differ on
    the sample 3. *)
Lemma Update_locality_witness :
  ~ Gradient (shifted 10) (M1 2) 3 1 = Gradient (masked 3 10) (M1 2) 3 1 /\
  Update 0 (shifted 10) noisy_start 0 4 3 false
  = Update 0 (masked 3 10) noisy_start 0 4 3 false.
Proof.
  split; [discriminate|].
  apply (@Update_locality mat1 _ (shifted 10) (masked 3 10) 0%nat 4%nat
           3%nat).
  - intros x. reflexivity.
  - intros x i Hi.
    destruct i as [|[|[|i]]]; try reflexivity. simpl in Hi. lia.
  - reflexivity.
Defined.

Section UpdateInputs.

Context {mat : Type} `{Arma mat}.
Variable f : DecomposableFunctionType mat.
Variables offset batchSize backtrackingBatchSize : nat.


(** [sampleVariance] is an output of [Update] only: the value passed in is
    never read, and two calls that differ in it have the same outcome. *)
Theorem Update_ignores_sampleVariance (fuel : nat)
    (this : AdaptiveStepsize mat) (stepSize : Q) (iterate gradient : mat)
    (gradientNorm sampleVariance sampleVariance' : Q) (reset : bool) :
  Update fuel f
    (mkUp this stepSize iterate gradient gradientNorm sampleVariance)
    offset batchSize backtrackingBatchSize reset
  = Update fuel f
      (mkUp this stepSize iterate gradient gradientNorm sampleVariance')
      offset batchSize backtrackingBatchSize reset.
Proof.
  unfold Update, Update_blend.
  change (call_Backtracking fuel f
            (mkUp this stepSize iterate gradient gradientNorm sampleVariance)
            offset backtrackingBatchSize)
    with (bt <- Backtracking fuel f
                  (mkBt this stepSize iterate gradient gradientNorm)
                  offset backtrackingBatchSize ;;
          Ok (mkUp (bt_this bt) (bt_stepSize bt) (bt_iterate bt)
                   (bt_gradient bt) gradientNorm sampleVariance)).
  change (call_Backtracking fuel f
            (mkUp this stepSize iterate gradient gradientNorm sampleVariance')
            offset backtrackingBatchSize)
    with (bt <- Backtracking fuel f
                  (mkBt this stepSize iterate gradient gradientNorm)
                  offset backtrackingBatchSize ;;
          Ok (mkUp (bt_this bt) (bt_stepSize bt) (bt_iterate bt)
                   (bt_gradient bt) gradientNorm sampleVariance')).
  destruct (Backtracking fuel f
              (mkBt this stepSize iterate gradient gradientNorm)
              offset backtrackingBatchSize) as [bt| |]; reflexivity.
Qed.

(** The first call to [Update] on a controller made by the constructor,
    for an Armadillo whose 0x0 matrix is empty: the curvature is measured
    against the zero matrix of the shape of the new iterate, and the
    controller keeps the shrink factor and the search parameter given to
    the constructor, 0.5 and 0.1 when left out. *)
Theorem Update_first_call (fuel : nat) (st st' : up_store mat)
    (b c : option Q) (reset : bool) :
  is_empty (zeros 0 0 : mat) = true ->
  up_this st = AdaptiveStepsize_ctor b c ->
  Update fuel f st offset batchSize backtrackingBatchSize reset = Ok st' ->
  previous_iterate (up_this st) (up_iterate st')
  = zeros (n_rows (up_iterate st')) (n_cols (up_iterate st')) /\
  BacktrackStepSize (up_this st')
  = match b with Some x => x | None => 1 # 2 end /\
  SearchParameter (up_this st')
  = match c with Some x => x | None => 1 # 10 end /\
  exists (st2 : up_store mat) (v decay : Q),
    Update_blend fuel f st offset batchSize backtrackingBatchSize
    = Ok (st2, v, decay) /\
    v = curvature
          (trace (mmul
             (trans (msub (up_iterate st')
                      (zeros (n_rows (up_iterate st'))
                             (n_cols (up_iterate st')))))
             (msub (up_gradient st')
                   (gradient_sum f
                      (zeros (n_rows (up_iterate st'))
                             (n_cols (up_iterate st')))
                      offset backtrackingBatchSize))))
          (pow2 (norm (msub (up_iterate st')
                        (zeros (n_rows (up_iterate st'))
                               (n_cols (up_iterate st')))))).
Proof.
  intros Hempty Hthis E. apply Update_phases in E.
  destruct E as (st1 & st1' & st2 & v & decay & E1 & Ee & Eb & E2
                 & Ht & Hi & Hg & _).
  apply call_Backtracking_Ok in E1. destruct E1 as (Ht1 & _).
  apply call_Backtracking_Ok in E2.
  destruct E2 as (Ht2 & Hi2 & Hg2 & _).
  assert (Ef := Ee). apply estimate_frame in Ef.
  destruct Ef as (_ & Hb & Hc).
  apply estimate_closed_form in Ee. destruct Ee as (_ & _ & _ & Hv).
  assert (Hp : forall x : mat,
             previous_iterate (up_this st) x = zeros (n_rows x) (n_cols x)).
  { intros x. unfold previous_iterate. rewrite Hthis. simpl.
    rewrite Hempty. reflexivity. }
  split; [apply Hp|].
  unfold BacktrackStepSize, SearchParameter.
  rewrite Ht2, Ht, Hb, Hc, Ht1, Hthis. simpl.
  split; [reflexivity|]. split; [reflexivity|].
  exists st2, v, decay. split; [exact Eb|].
  rewrite Ht1, !Hp in Hv. rewrite Hi2, Hg2, Hi, Hg. exact Hv.
Qed.

End UpdateInputs.


(** [noisy_start] holds a controller made by the constructor with its
    default arguments. *)
Lemma Update_first_call_witness :
  exists st' : up_store mat1,
    up_this noisy_start = AdaptiveStepsize_ctor None None /\
    Update 0 (shifted 10) noisy_start 0 4 3 false = Ok st' /\
    BacktrackStepSize (up_this st') = 1 # 2 /\
    SearchParameter (up_this st') = 1 # 10.
Proof.
  edestruct (@Update_first_call mat1 _ (shifted 10) 0%nat 4%nat 3%nat 0%nat
               noisy_start)
    with (b := @None Q) (c := @None Q) (reset := false)
    as (_ & Hb & Hc & _).
  - reflexivity.
  - reflexivity.
  - vm_compute; reflexivity.
  - eexists. split; [reflexivity|].
    split; [vm_compute; reflexivity|]. split; [exact Hb | exact Hc].
Defined.

(** * The line search in binary64 *)

Section Binary64LineSearch.

Context {mat : Type} `{B64.Arma mat}.
Variable f : B64.DecomposableFunctionType mat.
Variables offset backtrackingBatchSize : nat.

Lemma b64_iter_shift (n : nat) (st : B64.bt_store mat) :
  B64.bt_iter n (B64.bt_shrink st) = B64.bt_iter (S n) st.
Proof.
  unfold B64.bt_iter. symmetry. apply Nat.iter_succ_r.
Qed.

Lemma b64_iter_frame (n : nat) (st : B64.bt_store mat) :
  B64.bt_this (B64.bt_iter n st) = B64.bt_this st /\
  B64.bt_iterate (B64.bt_iter n st) = B64.bt_iterate st /\
  B64.bt_gradient (B64.bt_iter n st) = B64.bt_gradient st /\
  B64.bt_gradientNorm (B64.bt_iter n st) = B64.bt_gradientNorm st.
Proof.
  induction n as [|n IH]; [repeat split|].
  change (B64.bt_iter (S n) st) with (B64.bt_shrink (B64.bt_iter n st)).
  destruct IH as (Ht & Hi & Hg & Hn). unfold B64.bt_shrink; simpl. auto.
Qed.

Lemma b64_rejected_iter (n : nat) (st : B64.bt_store mat) :
  B64.rejected f (B64.bt_iter n st) offset backtrackingBatchSize
  = B64.bt_cond (B64.bt_iter n st)
      (B64.Evaluate f (B64.bt_iterate st) offset backtrackingBatchSize)
      (B64.evalUpdate f (B64.bt_iter n st) offset backtrackingBatchSize).
Proof.
  unfold B64.rejected.
  destruct (b64_iter_frame n st) as (_ & -> & _). reflexivity.
Qed.

Lemma b64_while_Ok (obj : B64.double) (fuel : nat) :
  forall st st' : B64.bt_store mat,
  B64.bt_while fuel f offset backtrackingBatchSize obj st
    (B64.evalUpdate f st offset backtrackingBatchSize) = Ok st' ->
  exists n, (n <= fuel)%nat /\ st' = B64.bt_iter n st /\
    B64.bt_cond (B64.bt_iter n st) obj
      (B64.evalUpdate f (B64.bt_iter n st) offset backtrackingBatchSize)
    = false /\
    forall k, (k < n)%nat ->
      B64.bt_cond (B64.bt_iter k st) obj
        (B64.evalUpdate f (B64.bt_iter k st) offset backtrackingBatchSize)
      = true.
Proof.
  induction fuel as [|fuel IH]; intros st st'; cbn [B64.bt_while];
    destruct (B64.bt_cond st obj _) eqn:C; try discriminate.
  - intros [= <-]. exists 0%nat. repeat split; auto. intros k Hk; lia.
  - intros E. apply IH in E. destruct E as (n & Hn & -> & Hacc & Hrej).
    exists (S n). rewrite <- !b64_iter_shift. repeat split; auto; [lia|].
    intros [|k] Hk; [exact C|].
    rewrite <- b64_iter_shift. apply Hrej. lia.
  - intros [= <-]. exists 0%nat. repeat split; auto; [lia|]. intros k Hk; lia.
Qed.

Lemma b64_while_reach (obj : B64.double) (n : nat) :
  forall (fuel : nat) (st : B64.bt_store mat),
  (n <= fuel)%nat ->
  B64.bt_cond (B64.bt_iter n st) obj
    (B64.evalUpdate f (B64.bt_iter n st) offset backtrackingBatchSize)
  = false ->
  (forall k, (k < n)%nat ->
     B64.bt_cond (B64.bt_iter k st) obj
       (B64.evalUpdate f (B64.bt_iter k st) offset backtrackingBatchSize)
     = true) ->
  B64.bt_while fuel f offset backtrackingBatchSize obj st
    (B64.evalUpdate f st offset backtrackingBatchSize)
  = Ok (B64.bt_iter n st).
Proof.
  induction n as [|n IH]; intros fuel st Hle Hacc Hrej.
  - change (B64.bt_iter 0 st) with st in Hacc.
    destruct fuel; cbn [B64.bt_while]; rewrite Hacc; reflexivity.
  - destruct fuel as [|fuel]; [lia|]. cbn [B64.bt_while].
    assert (H0 := Hrej 0%nat (Nat.lt_0_succ n)).
    change (B64.bt_iter 0 st) with st in H0. rewrite H0.
    rewrite <- b64_iter_shift. apply IH; [lia| |].
    + rewrite b64_iter_shift. exact Hacc.
    + intros k Hk. rewrite b64_iter_shift. apply Hrej. lia.
Qed.

Lemma b64_Backtracking_Ok (fuel : nat) (st st' : B64.bt_store mat) :
  B64.Backtracking fuel f st offset backtrackingBatchSize = Ok st' <->
  exists n, (n <= fuel)%nat /\ st' = B64.bt_iter n st /\
    B64.rejected f (B64.bt_iter n st) offset backtrackingBatchSize = false /\
    forall k, (k < n)%nat ->
      B64.rejected f (B64.bt_iter k st) offset backtrackingBatchSize = true.
Proof.
  unfold B64.Backtracking. split.
  - intros E. apply b64_while_Ok in E.
    destruct E as (n & Hn & -> & Hacc & Hrej).
    exists n. rewrite b64_rejected_iter. repeat split; auto.
    intros k Hk. rewrite b64_rejected_iter. auto.
  - intros (n & Hn & -> & Hacc & Hrej). apply b64_while_reach; auto.
    + rewrite <- b64_rejected_iter. exact Hacc.
    + intros k Hk. rewrite <- b64_rejected_iter. auto.
Qed.

Lemma b64_while_finite (obj : B64.double) (fuel : nat) :
  forall (st : B64.bt_store mat) (u : B64.double),
  B64.bt_while fuel f offset backtrackingBatchSize obj st u <> NonFinite.
Proof.
  induction fuel as [|fuel IH]; intros st u; cbn [B64.bt_while];
    destruct (B64.bt_cond st obj u); try discriminate. apply IH.
Qed.

(** A loop all of whose candidates are rejected runs out of any fuel. *)
Lemma b64_never_returns (st : B64.bt_store mat) :
  (forall n,
     B64.rejected f (B64.bt_iter n st) offset backtrackingBatchSize = true) ->
  forall fuel,
    B64.Backtracking fuel f st offset backtrackingBatchSize = OutOfFuel.
Proof.
  intros Hall fuel.
  destruct (B64.Backtracking fuel f st offset backtrackingBatchSize)
    as [st'| |] eqn:E.
  - apply b64_Backtracking_Ok in E. destruct E as (n & _ & _ & Hacc & _).
    rewrite Hall in Hacc. discriminate.
  - exfalso. unfold B64.Backtracking in E. apply (b64_while_finite _ _ _ _ E).
  - reflexivity.
Qed.

Lemma b64_all_rejected (n : nat) : forall st : B64.bt_store mat,
  B64.all_rejected n f st offset backtrackingBatchSize = true ->
  forall k, (k < n)%nat ->
    B64.rejected f (B64.bt_iter k st) offset backtrackingBatchSize = true.
Proof.
  induction n as [|n IH]; intros st Hall k Hk; [lia|].
  cbn [B64.all_rejected] in Hall. apply andb_true_iff in Hall.
  destruct Hall as (H0 & Hall). destruct k as [|k]; [exact H0|].
  rewrite <- b64_iter_shift. apply IH; [exact Hall | lia].
Qed.

(** A store that the loop body maps to itself, reached through rejected
    stepsizes and itself rejected, is never left. *)
Lemma b64_stuck (n : nat) (st : B64.bt_store mat) :
  B64.bt_shrink (B64.bt_iter n st) = B64.bt_iter n st ->
  B64.all_rejected (S n) f st offset backtrackingBatchSize = true ->
  forall k,
    B64.rejected f (B64.bt_iter k st) offset backtrackingBatchSize = true.
Proof.
  intros Hfix Hall k.
  destruct (Nat.lt_ge_cases k (S n)) as [Hk|Hk].
  - apply b64_all_rejected with (n := S n); [exact Hall | exact Hk].
  - assert (E : B64.bt_iter k st = B64.bt_iter n st).
    { induction k as [|k IH]; [lia|].
      destruct (Nat.eq_dec k n) as [->|Hn].
      - exact Hfix.
      - change (B64.bt_iter (S k) st)
          with (B64.bt_shrink (B64.bt_iter k st)).
        rewrite IH by lia. exact Hfix. }
    rewrite E. apply b64_all_rejected with (n := S n); [exact Hall | lia].
Qed.

(** *** A stepsize that is not negative stays so *)

Lemma shr_1_nonneg (mrs : shr_record) :
  (0 <= shr_m mrs)%Z -> (0 <= shr_m (shr_1 mrs))%Z.
Proof.
  destruct mrs as [m r s]. simpl.
  destruct m as [|[p|p|]|[p|p|]]; simpl; intros Hm; lia.
Qed.

Lemma iter_pos_shr_1_nonneg (p : positive) : forall mrs : shr_record,
  (0 <= shr_m mrs)%Z -> (0 <= shr_m (iter_pos shr_1 p mrs))%Z.
Proof.
  induction p as [p IH|p IH|]; intros mrs Hm; simpl.
  - apply IH, IH, shr_1_nonneg, Hm.
  - apply IH, IH, Hm.
  - apply shr_1_nonneg, Hm.
Qed.

Lemma shr_fexp_nonneg (m e : Z) (l : location) :
  (0 <= m)%Z ->
  (0 <= shr_m (fst (shr_fexp B64.prec B64.emax m e l)))%Z.
Proof.
  intros Hm. unfold shr_fexp, shr.
  assert (H0 : (0 <= shr_m (shr_record_of_loc m l))%Z)
    by (destruct l as [|[ | | ]]; exact Hm).
  destruct (_ - e)%Z; simpl; try exact H0.
  apply iter_pos_shr_1_nonneg, H0.
Qed.

Lemma round_nearest_even_nonneg (m : Z) (l : location) :
  (0 <= m)%Z -> (0 <= round_nearest_even m l)%Z.
Proof.
  intros Hm. unfold round_nearest_even.
  destruct l as [|[ | | ]]; try lia. destruct (Z.even m); lia.
Qed.

Lemma binary_round_aux_nonneg (m e : Z) (l : location) :
  (0 <= m)%Z ->
  B64.nonneg (binary_round_aux B64.prec B64.emax false m e l) = true.
Proof.
  intros Hm. unfold binary_round_aux.
  assert (H1 := shr_fexp_nonneg e l Hm).
  destruct (shr_fexp B64.prec B64.emax m e l) as [mrs' e']. simpl in H1.
  assert (H2 := shr_fexp_nonneg e' loc_Exact
                  (round_nearest_even_nonneg (loc_of_shr_record mrs') H1)).
  destruct (shr_fexp B64.prec B64.emax _ e' loc_Exact) as [mrs'' e''].
  simpl in H2. destruct (shr_m mrs'') as [|p|p]; [reflexivity| |lia].
  destruct (_ <=? _)%Z; reflexivity.
Qed.

Lemma mul_nonneg (x : B64.double) (m : positive) (e : Z) :
  B64.nonneg x = true ->
  B64.nonneg (B64.mul x (S754_finite false m e)) = true.
Proof.
  destruct x as [[|]|[|]| |[|] mx ex]; try discriminate; intros _;
    try reflexivity.
  apply binary_round_aux_nonneg. lia.
Qed.

Lemma nonneg_leb (x : B64.double) :
  B64.nonneg x = true -> B64.leb B64.zero x = true.
Proof.
  destruct x as [[|]|[|]| |[|] mx ex]; try discriminate; reflexivity.
Qed.

Lemma positive_nonneg (x : B64.double) :
  B64.ltb B64.zero x = true -> B64.nonneg x = true.
Proof.
  destruct x as [[|]|[|]| |[|] mx ex]; try discriminate; reflexivity.
Qed.

Lemma shrink_factor_finite (b : B64.double) :
  B64.ltb B64.zero b = true -> B64.ltb b B64.one = true ->
  exists m e, b = S754_finite false m e.
Proof.
  destruct b as [[|]|[|]| |[|] m e]; try discriminate; intros _ _.
  exists m, e. reflexivity.
Qed.

Lemma b64_iter_nonneg (n : nat) (st : B64.bt_store mat) :
  B64.ltb B64.zero (B64.backtrackStepSize (B64.bt_this st)) = true ->
  B64.ltb (B64.backtrackStepSize (B64.bt_this st)) B64.one = true ->
  B64.nonneg (B64.bt_stepSize st) = true ->
  B64.nonneg (B64.bt_stepSize (B64.bt_iter n st)) = true.
Proof.
  intros Hb0 Hb1 Hs.
  destruct (shrink_factor_finite _ Hb0 Hb1) as (m & e & Eb).
  induction n as [|n IH]; [exact Hs|].
  change (B64.bt_iter (S n) st) with (B64.bt_shrink (B64.bt_iter n st)).
  unfold B64.bt_shrink; simpl.
  destruct (b64_iter_frame n st) as (-> & _). rewrite Eb.
  apply mul_nonneg, IH.
Qed.

(** *** The claims that rounding decides *)

(** C3, amended. In binary64, [Backtracking] returns if and only if one of
    the candidates, the stepsize passed in and its successive rounded
    products by [backtrackStepSize], passes the sufficient-decrease test as
    the code evaluates it; it then exits at the first such candidate,
    having run the loop body once for each candidate before it, and it does
    so for every bound on the iterations that is at least that number.
    Where no candidate passes, the loop never exits. *)
Theorem Backtracking_binary64_first_accepted (st : B64.bt_store mat) :
  ((exists fuel st',
      B64.Backtracking fuel f st offset backtrackingBatchSize = Ok st') <->
   (exists n,
      B64.rejected f (B64.bt_iter n st) offset backtrackingBatchSize
      = false)) /\
  (forall fuel st',
     B64.Backtracking fuel f st offset backtrackingBatchSize = Ok st' ->
     exists n, (n <= fuel)%nat /\ st' = B64.bt_iter n st /\
       B64.rejected f (B64.bt_iter n st) offset backtrackingBatchSize
       = false /\
       forall k, (k < n)%nat ->
         B64.rejected f (B64.bt_iter k st) offset backtrackingBatchSize
         = true) /\
  (forall n,
     B64.rejected f (B64.bt_iter n st) offset backtrackingBatchSize = false ->
     (forall k, (k < n)%nat ->
        B64.rejected f (B64.bt_iter k st) offset backtrackingBatchSize
        = true) ->
     forall fuel, (n <= fuel)%nat ->
       B64.Backtracking fuel f st offset backtrackingBatchSize
       = Ok (B64.bt_iter n st)) /\
  ((forall n,
      B64.rejected f (B64.bt_iter n st) offset backtrackingBatchSize = true) ->
   forall fuel,
     B64.Backtracking fuel f st offset backtrackingBatchSize = OutOfFuel).
Proof.
  split; [split|split; [|split]].
  - intros (fuel & st' & E). apply b64_Backtracking_Ok in E.
    destruct E as (n & _ & _ & Hacc & _). exists n. exact Hacc.
  - intros (n & Hacc).
    destruct (first_false
                (fun k => B64.rejected f (B64.bt_iter k st) offset
                            backtrackingBatchSize) n Hacc)
      as (m & _ & Hm & Hall).
    exists m, (B64.bt_iter m st). apply b64_Backtracking_Ok.
    exists m. repeat split; auto.
  - intros fuel st' E. apply b64_Backtracking_Ok. exact E.
  - intros n Hacc Hrej fuel Hn. apply b64_Backtracking_Ok.
    exists n. repeat split; auto.
  - apply b64_never_returns.
Qed.

(** C5, amended. In binary64, with a shrink factor in (0,1) and a stepsize
    > 0 on entry, the stepsize is never negative and never a NaN: it is
    >= 0 after any number of runs of the loop body, hence at every point of
    the loop, and on return.  It does not stay > 0: the products underflow
    to exactly 0. *)
Theorem Backtracking_binary64_stepSize_nonneg (st : B64.bt_store mat) :
  B64.ltb B64.zero (B64.backtrackStepSize (B64.bt_this st)) = true ->
  B64.ltb (B64.backtrackStepSize (B64.bt_this st)) B64.one = true ->
  B64.ltb B64.zero (B64.bt_stepSize st) = true ->
  (forall n, B64.leb B64.zero (B64.bt_stepSize (B64.bt_iter n st)) = true) /\
  (forall fuel st',
     B64.Backtracking fuel f st offset backtrackingBatchSize = Ok st' ->
     B64.leb B64.zero (B64.bt_stepSize st') = true).
Proof.
  intros Hb0 Hb1 Hs. apply positive_nonneg in Hs. split.
  - intros n. apply nonneg_leb, b64_iter_nonneg; assumption.
  - intros fuel st' E. apply b64_Backtracking_Ok in E.
    destruct E as (n & _ & -> & _).
    apply nonneg_leb, b64_iter_nonneg; assumption.
Qed.

End Binary64LineSearch.

(** ** The binary64 line search on one element *)

(** The shrink-required scenario of the specification, gradient norm 1000:
    the exact test [50 * (1 - s)^2 > 50 - 100 * s] holds for every [s > 0],
    and in binary64 the 28th candidate, [2^-27], passes it. *)
Lemma Backtracking_binary64_first_accepted_witness :
  B64.rejected B64.quadratic (B64.bt_iter 27 B64.spec_scenario) 0 10 = false /\
  B64.all_rejected 27 B64.quadratic B64.spec_scenario 0 10 = true /\
  B64.bt_stepSize (B64.bt_iter 27 B64.spec_scenario)
  = S754_finite false 4503599627370496 (-79) /\
  B64.Backtracking 27 B64.quadratic B64.spec_scenario 0 10
  = Ok (B64.bt_iter 27 B64.spec_scenario).
Proof.
  assert (Hacc : B64.rejected B64.quadratic
                   (B64.bt_iter 27 B64.spec_scenario) 0 10 = false)
    by (vm_compute; reflexivity).
  assert (Hall : B64.all_rejected 27 B64.quadratic B64.spec_scenario 0 10
                 = true) by (vm_compute; reflexivity).
  split; [exact Hacc|]. split; [exact Hall|].
  split; [vm_compute; reflexivity|].
  apply (@Backtracking_binary64_first_accepted B64.double _ B64.quadratic
           0%nat 10%nat B64.spec_scenario).
  - exact Hacc.
  - apply b64_all_rejected. exact Hall.
  - apply le_n.
Defined.

(** C3 as stated fails in binary64: at the kink of [|x|] with the shrink
    factor 0.75 the inputs meet the preconditions of the module, the
    stepsize sticks at [2 * 2^-1074] after 2585 shrinks, every candidate is
    rejected and the loop does not exit within any number of iterations. *)
Lemma Backtracking_binary64_diverges :
  (B64.ltb B64.zero B64.three_quarters = true /\
   B64.ltb B64.three_quarters B64.one = true /\
   B64.ltb B64.zero
     (B64.searchParameter (B64.bt_this (B64.kink B64.three_quarters)))
   = true /\
   B64.ltb B64.zero (B64.bt_stepSize (B64.kink B64.three_quarters)) = true /\
   B64.bt_stepSize (B64.bt_iter 2585 (B64.kink B64.three_quarters))
   = S754_finite false 2 (-1074)) /\
  forall fuel : nat,
    B64.Backtracking fuel B64.absolute (B64.kink B64.three_quarters) 0 1
    = OutOfFuel.
Proof.
  split.
  - repeat split; vm_compute; reflexivity.
  - apply b64_never_returns. apply (b64_stuck B64.absolute 0 1 2585).
    + vm_compute; reflexivity.
    + vm_compute; reflexivity.
Qed.

(** C5 as stated fails in binary64: at the kink of [|x|] with the shrink
    factor 0.5 and the stepsize 1, both in range, the line search returns
    after 1075 shrinks, and not sooner, with the stepsize exactly 0. *)
Lemma Backtracking_binary64_underflow :
  B64.ltb B64.zero B64.half = true /\
  B64.ltb B64.half B64.one = true /\
  B64.ltb B64.zero (B64.bt_stepSize (B64.kink B64.half)) = true /\
  B64.Backtracking 1074 B64.absolute (B64.kink B64.half) 0 1 = OutOfFuel /\
  B64.Backtracking 1075 B64.absolute (B64.kink B64.half) 0 1
  = Ok (B64.mkBt (B64.mkAdaptiveStepsize B64.zero B64.half B64.tenth)
                 (S754_zero false) B64.zero B64.one B64.one) /\
  B64.ltb B64.zero (S754_zero false) = false.
Proof.
  repeat split; vm_compute; reflexivity.
Qed.

(** At the same kink the stepsize is >= 0 after 1075 shrinks. *)
Lemma Backtracking_binary64_stepSize_nonneg_witness :
  B64.ltb B64.zero (B64.backtrackStepSize (B64.bt_this (B64.kink B64.half)))
  = true /\
  B64.ltb (B64.backtrackStepSize (B64.bt_this (B64.kink B64.half))) B64.one
  = true /\
  B64.ltb B64.zero (B64.bt_stepSize (B64.kink B64.half)) = true /\
  B64.leb B64.zero (B64.bt_stepSize (B64.bt_iter 1075 (B64.kink B64.half)))
  = true.
Proof.
  assert (Hb0 : B64.ltb B64.zero
                  (B64.backtrackStepSize (B64.bt_this (B64.kink B64.half)))
                = true) by reflexivity.
  assert (Hb1 : B64.ltb
                  (B64.backtrackStepSize (B64.bt_this (B64.kink B64.half)))
                  B64.one = true) by reflexivity.
  assert (Hs : B64.ltb B64.zero (B64.bt_stepSize (B64.kink B64.half))
               = true) by reflexivity.
  split; [exact Hb0|]. split; [exact Hb1|]. split; [exact Hs|].
  apply (@Backtracking_binary64_stepSize_nonneg B64.double _ B64.absolute
           0%nat 1%nat (B64.kink B64.half) Hb0 Hb1 Hs).
Defined.
